(** * sub_enum.py: the SecurityTrails client and its aggregation utilities

    A shallow embedding of [src/sub_enum.py].

    Conventions of the model.
    - A Python [str] is a [string]: a character of the model stands for one
      code point below 256, and [String.le], which compares character by
      character, is Python's ordering of [str].
    - A decoded JSON document is a [json] value; a Python [dict] keeps its
      keys in insertion order and is an association list with distinct keys.
    - Durations ([backoff], the arguments of [time.sleep]) are exact
      rationals: the rounding of Python's floats is not modelled.
    - The effects of the program (HTTP calls, sleeps, log lines) are kept in a
      [world]; a computation is a function from the world to a result or a
      raised exception, and the world after it.  The remote side is a
      function from the number of requests sent so far and the request to
      what [requests] does with it.
    - Default arguments are written out at the calls: [_get(path)] is
      [_get self path None 3 1]. *)

From Stdlib Require Import ZArith QArith Ascii DecimalString.
From stdpp Require Import gmap strings list sorting.

Local Open Scope Z_scope.

(** ** Python values *)

#[warnings="-register-all"]
Inductive json :=
| JNull
| JBool (b : bool)
| JNum (q : Q)
| JStr (s : string)
| JArr (items : list json)
| JObj (fields : list (string * json)).

Inductive verb := GET | POST.

(** The exceptions the program can meet.  [RequestException] stands for
    [requests.RequestException] and all its subclasses (connection errors,
    timeouts, [HTTPError]). *)
Inductive exn :=
| RequestException (detail : string)
| RuntimeError (msg : string)
| ValueError (msg : string)
| AttributeError
| TypeError.

Definition is_RequestException (e : exn) : bool :=
  match e with RequestException _ => true | _ => false end.

Abbreviation result A := (exn + A)%type.

(** Truth value of a Python object, as [if x], [not x] and [x or y] use it. *)
Definition nonempty (s : string) : bool := negb (String.eqb s "").

Definition truthy (v : json) : bool :=
  match v with
  | JNull => false
  | JBool b => b
  | JNum q => negb (Qnum q =? 0)
  | JStr s => nonempty s
  | JArr items => negb (bool_decide (items = []))
  | JObj fields => negb (bool_decide (fields = []))
  end.

(** [x or y] *)
Definition py_or (x y : json) : json := if truthy x then x else y.

(** [k in d] and [d.get(k, default)] on the fields of a dict. *)
Fixpoint lookup_field (k : string) (fields : list (string * json)) : option json :=
  match fields with
  | [] => None
  | (k', v) :: rest => if String.eqb k k' then Some v else lookup_field k rest
  end.

Definition has_key (k : string) (fields : list (string * json)) : bool :=
  match lookup_field k fields with Some _ => true | None => false end.

Definition dict_get (k : string) (fields : list (string * json)) (default : json) : json :=
  match lookup_field k fields with Some v => v | None => default end.

(** [x.get(k, default)]: only a dict has the method. *)
Definition py_get (x : json) (k : string) (default : json) : result json :=
  match x with
  | JObj fields => inr (dict_get k fields default)
  | _ => inl AttributeError
  end.

(** [for s in x]: the elements of a list, the keys of a dict, the characters
    of a string; the other values are not iterable. *)
Definition py_iter (x : json) : result (list json) :=
  match x with
  | JArr items => inr items
  | JObj fields => inr (map (fun kv => JStr (fst kv)) fields)
  | JStr s => inr (map (fun c => JStr (String c "")) (String.list_ascii_of_string s))
  | _ => inl TypeError
  end.

(** [s.endswith(suffix)]: the last [len(suffix)] characters of [s] are
    [suffix]. *)
Definition endswith (s suffix : string) : bool :=
  let n := String.length s in
  let m := String.length suffix in
  if (m <=? n)%nat then String.eqb (String.substring (n - m) m s) suffix else false.

(** [s.rstrip(c)] for a one-character [c]. *)
Fixpoint rstrip (c : ascii) (s : string) : string :=
  match s with
  | EmptyString => EmptyString
  | String a rest =>
      let rest' := rstrip c rest in
      if Ascii.eqb a c && String.eqb rest' "" then EmptyString else String a rest'
  end.

(** [f"{n}"] for an [int]. *)
Definition show (n : Z) : string := NilZero.string_of_int (Z.to_int n).

(** [range(lo, hi)] *)
Definition range (lo hi : Z) : list Z := seqZ lo (hi - lo).

(** [sorted(X)] for a set of [str]: the elements in increasing order. *)
Definition sorted (X : gset string) : list string :=
  merge_sort String.le (elements X).

(** ** The world: HTTP traffic, sleeps and log lines *)

Record request := {
  req_verb : verb;
  req_url : string;
  req_headers : list (string * string);
  req_params : option json;
  req_json : option json;
  req_timeout : Z
}.

(** What [session.get] or [session.post] does with a request: it raises a
    [requests.RequestException] (connection error, timeout, ...), or returns
    a response [r] with its [status_code] and with what [r.json()] does
    (return a document, or raise when the body is not JSON). *)
Inductive outcome :=
| Fault (detail : string)
| Response (status_code : Z) (body : result json).

Definition status_of (o : outcome) : option Z :=
  match o with Fault _ => None | Response st _ => Some st end.

(** The remote side: its answer to the request, given how many requests were
    sent before. *)
Definition transport := nat -> request -> outcome.

Inductive level := DEBUG | INFO | WARNING.

Inductive event :=
| RateLimited (wait : Q)
| RequestError (v : verb) (e : exn) (attempt retries : Z)
| RequestingSubdomains (domain : string)
| UnexpectedShape
| FoundSubdomains (n : nat)
| FetchingPage (page : Z)
| NoMoreRecords
| Aggregated (n : nat).

(** [sent] has one entry for each call of [session.get] or [session.post],
    in the order of the calls: the request the call is made with.  What
    [requests] sends by itself inside a call, when it follows a redirect, is
    not in it; the outcome of the call is the response the call returns. *)
Record world := {
  sent : list request;
  slept : list Q;
  logged : list (level * event)
}.

Definition M (A : Type) : Type := world -> result A * world.

Definition ret {A} (a : A) : M A := fun w => (inr a, w).

Definition raise {A} (e : exn) : M A := fun w => (inl e, w).

Definition bind {A B} (c : M A) (k : A -> M B) : M B :=
  fun w => match c w with
           | (inr a, w') => k a w'
           | (inl e, w') => (inl e, w')
           end.

Notation "x <- c ;; k" := (bind c (fun x => k))
  (at level 100, c at next level, right associativity).
Notation "c ;;; k" := (bind c (fun _ => k))
  (at level 100, right associativity).

(** A pure step that can raise. *)
Definition lift {A} (r : result A) : M A :=
  match r with inl e => raise e | inr a => ret a end.

(** [try: c  except <class> as e: handler(e)] *)
Definition try_except {A} (c : M A) (caught : exn -> bool) (handler : exn -> M A) : M A :=
  fun w => match c w with
           | (inl e, w') => if caught e then handler e w' else (inl e, w')
           | r => r
           end.

(** [logger.<level>(...)] *)
Definition log (l : level) (ev : event) : M unit :=
  fun w => (inr tt, {| sent := sent w; slept := slept w; logged := logged w ++ [(l, ev)] |}).

(** [time.sleep(d)]: a negative duration is a [ValueError]. *)
Definition sleep (d : Q) : M unit :=
  fun w => if Qle_bool 0 d
           then (inr tt, {| sent := sent w; slept := slept w ++ [d]; logged := logged w |})
           else (inl (ValueError "sleep length must be non-negative"), w).

(** [session.get(...)] / [session.post(...)]: one call, recorded in [sent],
    and what the call does. *)
Definition send (t : transport) (req : request) : M (Z * result json) :=
  fun w =>
    let w' := {| sent := sent w ++ [req]; slept := slept w; logged := logged w |} in
    match t (length (sent w)) req with
    | Fault detail => (inl (RequestException detail), w')
    | Response st body => (inr (st, body), w')
    end.

(** [r.raise_for_status()]: an [HTTPError] for the 4xx and 5xx codes. *)
Definition raise_for_status (status_code : Z) : M unit :=
  if (400 <=? status_code) && (status_code <? 600)
  then raise (RequestException "HTTPError")
  else ret tt.

(** ** SecurityTrailsClient *)

Definition DEFAULT_BASE : string := "https://api.securitytrails.com/v1".

(** [requests.Session]: the headers sent with every request, and the remote
    side the session talks to. *)
Record Session := {
  headers : list (string * string);
  remote : transport
}.

Record SecurityTrailsClient := {
  api_key : string;
  base : string;
  session : Session;
  timeout : Z
}.

(** [x or y] and [not x] on an [Optional[str]]. *)
Definition opt_truthy (x : option string) : bool :=
  match x with Some s => nonempty s | None => false end.

Definition opt_or (x y : option string) : option string :=
  if opt_truthy x then x else y.

(** [SecurityTrailsClient.__init__]; [environ] is the process environment
    that [os.getenv] reads and [net] the remote side the new session will
    talk to. *)
Definition __init__ (environ : gmap string string) (net : transport)
    (api_key : option string) (base_url : string) (timeout : Z) : M SecurityTrailsClient :=
  let key := opt_or api_key (environ !! "SECURITYTRAILS_APIKEY") in
  match key with
  | Some k =>
      if negb (nonempty k)
      then raise (ValueError "SecurityTrails API key not provided. Set SECURITYTRAILS_APIKEY or pass api_key param.")
      else ret {| api_key := k;
                  base := rstrip "/" base_url;
                  session := {| headers := [("Accept", "application/json");
                                            ("APIKEY", k);
                                            ("User-Agent", "BlackByt3-Subenum/1.0 (by Jahangir)")];
                                remote := net |};
                  timeout := timeout |}
  | None =>
      raise (ValueError "SecurityTrails API key not provided. Set SECURITYTRAILS_APIKEY or pass api_key param.")
  end.

Definition verb_name (v : verb) : string :=
  match v with GET => "GET" | POST => "POST" end.

(** The body of the [for attempt in range(1, retries + 1)] loop of [_get] and
    of [_post], which differ in the verb only.  [Some data] is
    [return r.json()]; [None] goes on with the next attempt. *)
Definition attempt_once (self : SecurityTrailsClient) (req : request)
    (retries : Z) (backoff : Q) (attempt : Z) : M (option json) :=
  try_except
    (r <- send (remote (session self)) req ;;
     if fst r =? 200 then
       data <- lift (snd r) ;;
       ret (Some data)
     else if fst r =? 429 then
       let wait := (backoff * inject_Z attempt)%Q in
       log WARNING (RateLimited wait) ;;;
       sleep wait ;;;
       ret None
     else
       raise_for_status (fst r) ;;;
       ret None)
    is_RequestException
    (fun e =>
       log WARNING (RequestError (req_verb req) e attempt retries) ;;;
       sleep (backoff * inject_Z attempt)%Q ;;;
       ret None).

Fixpoint attempts (self : SecurityTrailsClient) (req : request)
    (retries : Z) (backoff : Q) (todo : list Z) : M json :=
  match todo with
  | [] =>
      raise (RuntimeError (verb_name (req_verb req) +:+ " request to " +:+ req_url req
                           +:+ " failed after " +:+ show retries +:+ " attempts"))
  | attempt :: todo' =>
      r <- attempt_once self req retries backoff attempt ;;
      match r with
      | Some data => ret data
      | None => attempts self req retries backoff todo'
      end
  end.

Definition get_request (self : SecurityTrailsClient) (path : string) (params : option json) : request :=
  {| req_verb := GET; req_url := base self +:+ path; req_headers := headers (session self);
     req_params := params; req_json := None; req_timeout := timeout self |}.

Definition post_request (self : SecurityTrailsClient) (path : string) (json_body : json) : request :=
  {| req_verb := POST; req_url := base self +:+ path; req_headers := headers (session self);
     req_params := None; req_json := Some json_body; req_timeout := timeout self |}.

Definition _get (self : SecurityTrailsClient) (path : string) (params : option json)
    (retries : Z) (backoff : Q) : M json :=
  attempts self (get_request self path params) retries backoff (range 1 (retries + 1)).

Definition _post (self : SecurityTrailsClient) (path : string) (json_body : json)
    (retries : Z) (backoff : Q) : M json :=
  attempts self (post_request self path json_body) retries backoff (range 1 (retries + 1)).

(** *** list_subdomains *)

(** [full = s if s.endswith(domain) else f"{s}.{domain}" if s else None];
    [None] is Python's. *)
Definition full_name (domain : string) (s : json) : result (option string) :=
  match s with
  | JStr s =>
      inr (if endswith s domain then Some s
           else if nonempty s then Some (s +:+ "." +:+ domain)
           else None)
  | _ => inl AttributeError
  end.

(** The loop [for s in ...: ... if full: subdomains.append(full)]. *)
Fixpoint collect_fragments (domain : string) (fragments : list json)
    (subdomains : list string) : result (list string) :=
  match fragments with
  | [] => inr subdomains
  | s :: rest =>
      match full_name domain s with
      | inl e => inl e
      | inr full =>
          collect_fragments domain rest
            (match full with
             | Some name => if nonempty name then subdomains ++ [name] else subdomains
             | None => subdomains
             end)
      end
  end.

(** [isinstance(data, dict) and 'subdomains' in data] *)
Definition has_subdomains (data : json) : bool :=
  match data with JObj fields => has_key "subdomains" fields | _ => false end.

Definition list_subdomains (self : SecurityTrailsClient) (domain : string)
    : M (list string * json) :=
  let path := "/domain/" +:+ domain +:+ "/subdomains" in
  log INFO (RequestingSubdomains domain) ;;;
  data <- _get self path None 3 1 ;;
  subdomains <-
    (if has_subdomains data then
       field <- lift (py_get data "subdomains" (JArr [])) ;;
       fragments <- lift (py_iter field) ;;
       lift (collect_fragments domain fragments [])
     else
       log DEBUG UnexpectedShape ;;;
       ret []) ;;
  let unique := sorted (list_to_set subdomains) in
  log INFO (FoundSubdomains (length unique)) ;;;
  ret (unique, data).

(** *** search_subdomains *)

Definition search_body (domain : string) (page_size page : Z) : json :=
  JObj [("filter", JObj [("apex_domain", JStr domain)]);
        ("limit", JNum (inject_Z page_size));
        ("page", JNum (inject_Z page))].

(** [hostname = r.get("hostname") or r.get("domain")] *)
Definition candidate (r : json) : result json :=
  match py_get r "hostname" JNull with
  | inl e => inl e
  | inr h => if truthy h then inr h else py_get r "domain" JNull
  end.

(** [if hostname and hostname.endswith(domain): all_subdomains.add(hostname)] *)
Definition add_candidate (domain : string) (hostname : json) (all_subdomains : gset string)
    : result (gset string) :=
  if truthy hostname then
    match hostname with
    | JStr name => inr (if endswith name domain then {[name]} ∪ all_subdomains else all_subdomains)
    | _ => inl AttributeError
    end
  else inr all_subdomains.

(** The loop [for r in records]. *)
Fixpoint collect_records (domain : string) (records : list json) (all_subdomains : gset string)
    : result (gset string) :=
  match records with
  | [] => inr all_subdomains
  | r :: rest =>
      match candidate r with
      | inl e => inl e
      | inr hostname =>
          match add_candidate domain hostname all_subdomains with
          | inl e => inl e
          | inr all_subdomains' => collect_records domain rest all_subdomains'
          end
      end
  end.

(** The loop [for page in range(1, max_pages + 1)], with its [break]. *)
Fixpoint search_pages (self : SecurityTrailsClient) (domain : string) (page_size : Z)
    (pages : list Z) (all_subdomains : gset string) (raw_pages : list json)
    : M (gset string * list json) :=
  match pages with
  | [] => ret (all_subdomains, raw_pages)
  | page :: pages' =>
      let body := search_body domain page_size page in
      log INFO (FetchingPage page) ;;;
      resp <- _post self "/domains/list" body 3 1 ;;
      let raw_pages := raw_pages ++ [resp] in
      records <- lift (py_get resp "records" (JArr [])) ;;
      items <- lift (py_iter records) ;;
      all_subdomains <- lift (collect_records domain items all_subdomains) ;;
      if negb (truthy records) then
        log INFO NoMoreRecords ;;;
        ret (all_subdomains, raw_pages)
      else
        sleep (3 # 10) ;;;
        search_pages self domain page_size pages' all_subdomains raw_pages
  end.

Definition search_subdomains (self : SecurityTrailsClient) (domain : string)
    (page_size max_pages : Z) : M (list string * json) :=
  found <- search_pages self domain page_size (range 1 (max_pages + 1)) ∅ [] ;;
  log INFO (Aggregated (size (fst found))) ;;;
  ret (sorted (fst found), JObj [("pages", JArr (snd found))]).

(** ** Utility functions *)

(** [merge_sources]: [lists] are the positional arguments, each of which may
    be [None]. *)
Definition merge_sources (lists : list (option (list string))) : list string :=
  sorted (foldl (fun merged l => merged ∪ list_to_set (default [] l)) ∅ lists).

(** ** The documents of the search endpoint *)

(** The request [search_subdomains] sends for a page. *)
Definition search_request (self : SecurityTrailsClient) (domain : string)
    (page_size page : Z) : request :=
  post_request self "/domains/list" (search_body domain page_size page).

Definition str_or_null (v : json) : bool :=
  match v with JNull | JStr _ => true | _ => false end.

(** A record as the API documents it: a document whose [hostname] and
    [domain], where present, are strings or null. *)
Definition is_record (r : json) : bool :=
  match r with
  | JObj fields =>
      str_or_null (dict_get "hostname" fields JNull)
      && str_or_null (dict_get "domain" fields JNull)
  | _ => false
  end.

(** The records of a page as the API documents it: a document whose
    [records], where present, is a list of records. *)
Definition page_records (resp : json) : option (list json) :=
  match resp with
  | JObj fields =>
      match dict_get "records" fields (JArr []) with
      | JArr items => if forallb is_record items then Some items else None
      | _ => None
      end
  | _ => None
  end.

(** A page with at least one record. *)
Definition is_full_page (resp : json) : Prop :=
  exists items, page_records resp = Some items /\ items <> [].

Definition all_records (pages : list json) : list json :=
  flat_map (fun resp => default [] (page_records resp)) pages.

(** The records the loop goes through on a page, whatever the page is: what
    [for r in resp.get("records", [])] iterates over. *)
Definition fetched_records (resp : json) : list json :=
  match py_get resp "records" (JArr []) with
  | inr records => match py_iter records with inr items => items | inl _ => [] end
  | inl _ => []
  end.

(** The page requests of a run: the "Fetching page" lines of the log, one
    before each call of [_post]. *)
Fixpoint count_fetches (entries : list (level * event)) : nat :=
  match entries with
  | [] => 0
  | (_, FetchingPage _) :: rest => S (count_fetches rest)
  | _ :: rest => count_fetches rest
  end.

Definition page_fetches (w : world) : nat := count_fetches (logged w).

(** ** Test doubles *)

(** A world in which nothing has happened yet. *)
Definition fresh : world := {| sent := []; slept := []; logged := [] |}.

(** A mock transport: the n-th request gets the n-th outcome of [script], and
    [otherwise] once the script is over. *)
Definition scripted (script : list outcome) (otherwise : outcome) : transport :=
  fun n _ => nth n script otherwise.

(** A client as [__init__] builds it for the key ["k"], talking to [net]. *)
Definition client_of (net : transport) : SecurityTrailsClient :=
  {| api_key := "k";
     base := DEFAULT_BASE;
     session := {| headers := [("Accept", "application/json");
                               ("APIKEY", "k");
                               ("User-Agent", "BlackByt3-Subenum/1.0 (by Jahangir)")];
                   remote := net |};
     timeout := 15 |}.

(** Pages used in the examples. *)
Definition page_www_api : json :=
  JObj [("records", JArr [JObj [("hostname", JStr "www.example.com")];
                          JObj [("hostname", JStr "api.example.com")]])].

Definition page_mail : json :=
  JObj [("records", JArr [JObj [("domain", JStr "mail.example.com")]])].

Definition page_evil : json :=
  JObj [("records", JArr [JObj [("hostname", JStr "evil-example.com")];
                          JObj [("hostname", JStr "api.example.com")];
                          JObj [("hostname", JStr "example.org")]])].

Definition page_empty_hostname : json :=
  JObj [("records", JArr [JObj [("hostname", JStr ""); ("domain", JStr "api.example.com")]])].

Definition page_end : json := JObj [("records", JArr [])].

(** ** Files, standard output and the command line *)

(** The file system: the text of each file, and the paths that [open(path,
    "w")] refuses (a missing directory, a directory, a path without the
    permission to write). *)
Record disk := {
  files : gmap string string;
  refused : gset string
}.

(** What ends a run of the script besides the exceptions of the client: the
    [OSError] of [open]. *)
Inductive failure :=
| Raised (e : exn)
| OSError (filename : string).

(** The text [f.write(h + "\n")] adds for each host, in order. *)
Fixpoint written (hosts : list string) : string :=
  match hosts with
  | [] => ""
  | h :: rest => h +:+ String "010" (written rest)
  end.

(** [save_to_file(hosts, path)]: [open(path, "w")] raises or empties the
    file, and the loop writes one line for each host. *)
Definition save_to_file (hosts : list string) (path : string) (d : disk) : failure + disk :=
  if bool_decide (path ∈ refused d)
  then inl (OSError path)
  else inr {| files := <[path := written hosts]> (files d); refused := refused d |}.



(** The arguments as [argparse] hands them over: [--method] is one of its two
    choices, [--out] and [--api-key] are [None] when absent. *)
Inductive method := by_list | by_search.

Definition method_name (m : method) : string :=
  match m with by_list => "list" | by_search => "search" end.

Record Namespace := {
  arg_domain : string;
  arg_method : method;
  arg_out : option string;
  arg_api_key : option string
}.

(** The state of a run of the script: the world of the client, the lines
    printed on standard output, and the file system. *)
Record process := {
  network : world;
  stdout : list string;
  storage : disk
}.

(** The script under [if __name__ == "__main__"], after [parse_args]: [inr tt]
    is a run that ends normally, [inl] a run that an uncaught exception
    ends. *)
Definition main (environ : gmap string string) (net : transport) (args : Namespace)
    (p : process) : (failure + unit) * process :=
  match __init__ environ net (arg_api_key args) DEFAULT_BASE 15 (network p) with
  | (inl e, w) => (inl (Raised e), {| network := w; stdout := stdout p; storage := storage p |})
  | (inr client, w) =>
      match (match arg_method args with
             | by_list => list_subdomains client (arg_domain args)
             | by_search => search_subdomains client (arg_domain args) 100 10
             end) w with
      | (inl e, w') =>
          (inl (Raised e), {| network := w'; stdout := stdout p; storage := storage p |})
      | (inr (subs, raw), w') =>
          let printed :=
            stdout p
            ++ ["Found " +:+ show (Z.of_nat (length subs)) +:+ " subdomains for "
                +:+ arg_domain args +:+ " via SecurityTrails ("
                +:+ method_name (arg_method args) +:+ ")"]
            ++ subs in
          match arg_out args with
          | Some out =>
              if nonempty out then
                match save_to_file subs out (storage p) with
                | inl err =>
                    (inl err, {| network := w'; stdout := printed; storage := storage p |})
                | inr d =>
                    (inr tt, {| network := w';
                                stdout := printed ++ ["[INFO] Saved results to " +:+ out];
                                storage := d |})
                end
              else (inr tt, {| network := w'; stdout := printed; storage := storage p |})
          | None => (inr tt, {| network := w'; stdout := printed; storage := storage p |})
          end
      end
  end.

(** A file system without files, where every path can be written. *)
Definition empty_disk : disk := {| files := ∅; refused := ∅ |}.

Definition fresh_process : process :=
  {| network := fresh; stdout := []; storage := empty_disk |}.

(** ** Words for the statements *)

(** The answers after which an attempt sleeps and goes on: a transport
    fault, a 429, a 4xx or 5xx status, and a 200 whose body [r.json()]
    rejects with a [RequestException]. *)
Definition backs_off (o : outcome) : bool :=
  match o with
  | Fault _ => true
  | Response st body =>
      if st =? 200
      then match body with inl e => is_RequestException e | inr _ => false end
      else (st =? 429) || ((400 <=? st) && (st <? 600))
  end.

(** The answers after which an attempt goes on at once: the other statuses
    (1xx, 2xx but 200, 3xx, ...). *)
Definition passes_over (o : outcome) : bool :=
  match o with
  | Fault _ => false
  | Response st _ =>
      negb (st =? 200) && negb (st =? 429) && negb ((400 <=? st) && (st <? 600))
  end.

(** [n] times the character [c]. *)
Fixpoint repeat_char (c : ascii) (n : nat) : string :=
  match n with
  | O => ""
  | S n' => String c (repeat_char c n')
  end.

(** * Properties *)

(** ** Strings *)

Lemma substring_full (s : string) : String.substring 0 (String.length s) s = s.
Proof. induction s as [|a s IH]; simpl; [reflexivity | f_equal; exact IH]. Qed.

Lemma substring_prefix_length (p d : string) :
  String.substring (String.length p) (String.length d) (p +:+ d) = d.
Proof. induction p as [|a p IH]; simpl; [apply substring_full | exact IH]. Qed.

Lemma substring_split (s : string) (k : nat) :
  (k <= String.length s)%nat ->
  s = String.substring 0 k s +:+ String.substring k (String.length s - k) s.
Proof.
  revert k. induction s as [|a s IH]; intros [|k] Hk; simpl in *.
  - reflexivity.
  - lia.
  - change (String a s = String a (String.substring 0 (String.length s) s)).
    by rewrite substring_full.
  - change (String a s = String a (String.substring 0 k s +:+
                                   String.substring k (String.length s - k) s)).
    f_equal. apply IH. lia.
Qed.

Lemma string_length_app (p d : string) :
  String.length (p +:+ d) = (String.length p + String.length d)%nat.
Proof. induction p as [|a p IH]; simpl; [reflexivity | f_equal; exact IH]. Qed.

(** [endswith] is the suffix relation on strings. *)
Lemma endswith_spec (s d : string) :
  endswith s d = true <-> exists p, s = p +:+ d.
Proof.
  unfold endswith. split.
  - destruct (Nat.leb_spec (String.length d) (String.length s)) as [Hle|]; [|discriminate].
    intros Heq. apply String.eqb_eq in Heq.
    exists (String.substring 0 (String.length s - String.length d) s).
    rewrite (substring_split s (String.length s - String.length d)) at 1 by lia.
    f_equal. etrans; [|exact Heq]. f_equal. lia.
  - intros [p ->]. rewrite string_length_app.
    destruct (Nat.leb_spec (String.length d) (String.length p + String.length d)) as [_|]; [|lia].
    replace (String.length p + String.length d - String.length d)%nat
      with (String.length p) by lia.
    rewrite substring_prefix_length. apply String.eqb_refl.
Qed.

Lemma nonempty_true (s : string) : nonempty s = true <-> s <> "".
Proof.
  unfold nonempty. destruct (String.eqb_spec s ""); simpl; split; congruence.
Qed.

(** ** [sorted] *)

Lemma elem_of_sorted (X : gset string) (x : string) : x ∈ sorted X <-> x ∈ X.
Proof. unfold sorted. rewrite merge_sort_Permutation. apply elem_of_elements. Qed.

Lemma NoDup_sorted (X : gset string) : NoDup (sorted X).
Proof. unfold sorted. rewrite merge_sort_Permutation. apply NoDup_elements. Qed.

Lemma StronglySorted_sorted (X : gset string) : StronglySorted String.le (sorted X).
Proof. unfold sorted. apply StronglySorted_merge_sort; apply _. Qed.

Lemma length_sorted (X : gset string) : length (sorted X) = size X.
Proof. unfold sorted. rewrite merge_sort_Permutation. reflexivity. Qed.

(** ** merge_sources *)

Lemma elem_of_merge_fold (lists : list (option (list string))) (X : gset string) (x : string) :
  x ∈ foldl (fun merged l => merged ∪ list_to_set (default [] l)) X lists
  <-> x ∈ X \/ exists l, Some l ∈ lists /\ x ∈ l.
Proof.
  revert X. induction lists as [|o lists IH]; intros X; simpl.
  - split; [auto | intros [?|(l & Hl & _)]; [done | inversion Hl]].
  - rewrite IH, elem_of_union, elem_of_list_to_set. split.
    + intros [[?|Hx]|(l & Hl & Hx)]; [auto | | right; exists l; split; [by right | done]].
      destruct o as [l|]; simpl in Hx; [|inversion Hx].
      right. exists l. split; [by left | done].
    + intros [?|(l & Hl & Hx)]; [auto|].
      apply elem_of_cons in Hl as [<-|Hl]; [by left; right | right; eauto].
Qed.

(** The output holds exactly the hostnames of the arguments. *)
Lemma elem_of_merge_sources (lists : list (option (list string))) (x : string) :
  x ∈ merge_sources lists <-> exists l, Some l ∈ lists /\ x ∈ l.
Proof.
  unfold merge_sources. rewrite elem_of_sorted, elem_of_merge_fold.
  split; [intros [H|H]; [by apply not_elem_of_empty in H | done] | auto].
Qed.

(** C5: [merge_sources(A, B) == merge_sources(B, A)]; the output of
    [merge_sources] has no duplicate and is sorted in the order of strings,
    whatever the arguments; and merging a list with itself gives what merging
    it once gives. *)
Theorem merge_sources_comm_idemp_sorted :
  (forall A B : option (list string), merge_sources [A; B] = merge_sources [B; A]) /\
  (forall lists : list (option (list string)),
     NoDup (merge_sources lists) /\ StronglySorted String.le (merge_sources lists)) /\
  (forall A : option (list string), merge_sources [A; A] = merge_sources [A]).
Proof.
  split; [|split].
  - intros A B. unfold merge_sources. simpl. f_equal.
    apply set_eq. intros x. rewrite !elem_of_union. tauto.
  - intros lists. split; [apply NoDup_sorted | apply StronglySorted_sorted].
  - intros A. unfold merge_sources. simpl. f_equal.
    apply set_eq. intros x. rewrite !elem_of_union. tauto.
Qed.

(** ** The request layer *)

(** Case analysis on the innermost test of a goal, again and again. *)
Ltac destruct_innermost :=
  repeat match goal with
         | |- context [match ?x with _ => _ end] =>
             lazymatch x with
             | context [match _ with _ => _ end] => fail
             | _ => destruct x; cbn
             end
         end.

Lemma sleep_nonneg (d : Q) (w : world) :
  (0 <= d)%Q ->
  sleep d w = (inr tt, {| sent := sent w; slept := slept w ++ [d]; logged := logged w |}).
Proof. intros Hd. unfold sleep. apply Qle_bool_iff in Hd. by rewrite Hd. Qed.

Lemma wait_nonneg (backoff : Q) (attempt : Z) :
  (0 <= backoff)%Q -> 0 <= attempt -> (0 <= backoff * inject_Z attempt)%Q.
Proof.
  intros Hb Ha. apply Qmult_le_0_compat; [exact Hb|].
  change 0%Q with (inject_Z 0). by rewrite <- Zle_Qle.
Qed.

Lemma count_fetches_app l1 l2 :
  count_fetches (l1 ++ l2) = (count_fetches l1 + count_fetches l2)%nat.
Proof.
  induction l1 as [|[l ev] l1 IH]; [done|].
  cbn [app count_fetches]. destruct ev; rewrite ?IH; done.
Qed.

Lemma range_from_1 (retries : Z) :
  0 <= retries ->
  Forall (fun attempt => 0 <= attempt) (range 1 (retries + 1))
  /\ length (range 1 (retries + 1)) = Z.to_nat retries.
Proof.
  intros H. unfold range. replace (retries + 1 - 1) with retries by lia. split.
  - apply Forall_forall. intros a Ha. apply elem_of_seqZ in Ha. lia.
  - apply length_seqZ.
Qed.

Section request_layer.

Context (self : SecurityTrailsClient) (req : request) (retries : Z) (backoff : Q).

(** An attempt answered with 200 returns the decoded body, without a sleep. *)
Lemma attempt_once_200 attempt data w :
  remote (session self) (length (sent w)) req = Response 200 (inr data) ->
  attempt_once self req retries backoff attempt w =
    (inr (Some data), {| sent := sent w ++ [req]; slept := slept w; logged := logged w |}).
Proof. intros H. unfold attempt_once, try_except, bind, send. by rewrite H. Qed.

Lemma attempts_first_200 data w :
  1 <= retries ->
  remote (session self) (length (sent w)) req = Response 200 (inr data) ->
  attempts self req retries backoff (range 1 (retries + 1)) w =
    (inr data, {| sent := sent w ++ [req]; slept := slept w; logged := logged w |}).
Proof.
  intros Hr H. unfold range. rewrite seqZ_cons by lia. cbn [attempts].
  unfold bind. by rewrite (attempt_once_200 _ data).
Qed.

(** The request layer returns nothing but the decoded body of a 200
    response. *)
Lemma attempt_once_returned attempt data w :
  fst (attempt_once self req retries backoff attempt w) = inr (Some data) ->
  remote (session self) (length (sent w)) req = Response 200 (inr data).
Proof.
  unfold attempt_once, try_except, bind, send, log, sleep, raise_for_status, lift, raise, ret.
  destruct (remote (session self) (length (sent w)) req) as [detail|st body];
    [|destruct (Z.eqb_spec st 200) as [->|Hst]; cbn [fst snd];
      [rewrite Z.eqb_refl | apply Z.eqb_neq in Hst; rewrite Hst]];
    destruct_innermost; intros; congruence.
Qed.

Lemma attempts_returned todo data w :
  fst (attempts self req retries backoff todo w) = inr data ->
  exists n, remote (session self) n req = Response 200 (inr data).
Proof.
  revert w. induction todo as [|attempt todo IH]; intros w; [done|].
  cbn [attempts]. unfold bind.
  destruct (attempt_once self req retries backoff attempt w) as [[e|[data'|]] w1] eqn:E;
    cbn [fst ret].
  - discriminate.
  - intros [= ->]. exists (length (sent w)).
    apply (attempt_once_returned attempt). by rewrite E.
  - apply IH.
Qed.

(** What the request layer returns depends on the requests sent so far, not
    on the sleeps and the log lines. *)
Lemma attempt_once_same_sent attempt w1 w2 :
  sent w1 = sent w2 ->
  fst (attempt_once self req retries backoff attempt w1)
  = fst (attempt_once self req retries backoff attempt w2)
  /\ sent (snd (attempt_once self req retries backoff attempt w1))
     = sent (snd (attempt_once self req retries backoff attempt w2)).
Proof.
  intros H.
  unfold attempt_once, try_except, bind, send, log, sleep, raise_for_status, lift, raise, ret.
  rewrite H. destruct_innermost; rewrite ?H; done.
Qed.

Lemma attempts_same_sent todo w1 w2 :
  sent w1 = sent w2 ->
  fst (attempts self req retries backoff todo w1)
  = fst (attempts self req retries backoff todo w2).
Proof.
  revert w1 w2. induction todo as [|attempt todo IH]; intros w1 w2 H; [done|].
  cbn [attempts]. unfold bind.
  destruct (attempt_once_same_sent attempt w1 w2 H) as [Hfst Hsent].
  destruct (attempt_once self req retries backoff attempt w1) as [r1 w1'],
           (attempt_once self req retries backoff attempt w2) as [r2 w2'].
  cbn [fst snd] in *. subst r2. destruct r1 as [e|[data|]]; [done | done |].
  by apply IH.
Qed.

(** The request layer writes no "Fetching page" line. *)
Lemma attempt_once_fetches attempt w :
  page_fetches (snd (attempt_once self req retries backoff attempt w)) = page_fetches w.
Proof.
  unfold page_fetches, attempt_once, try_except, bind, send, log, sleep, raise_for_status,
    lift, raise, ret.
  destruct_innermost; rewrite ?count_fetches_app; cbn [count_fetches]; lia.
Qed.

Lemma attempts_fetches todo w :
  page_fetches (snd (attempts self req retries backoff todo w)) = page_fetches w.
Proof.
  revert w. induction todo as [|attempt todo IH]; intros w; [done|].
  cbn [attempts]. unfold bind.
  pose proof (attempt_once_fetches attempt w) as H.
  destruct (attempt_once self req retries backoff attempt w) as [[e|[data|]] w1];
    cbn [snd] in *; [done | done |].
  by rewrite IH.
Qed.

(** From here on the backoff is a duration. *)
Hypothesis backoff_nonneg : (0 <= backoff)%Q.

(** An attempt answered with 429 sleeps [backoff * attempt] and goes on. *)
Lemma attempt_once_429 attempt body w :
  0 <= attempt ->
  remote (session self) (length (sent w)) req = Response 429 body ->
  attempt_once self req retries backoff attempt w =
    (inr None, {| sent := sent w ++ [req];
                  slept := slept w ++ [(backoff * inject_Z attempt)%Q];
                  logged := logged w ++ [(WARNING, RateLimited (backoff * inject_Z attempt))] |}).
Proof.
  intros Ha H. unfold attempt_once, try_except, bind, send. rewrite H. simpl.
  by rewrite sleep_nonneg by by apply wait_nonneg.
Qed.

(** An attempt that is not answered with 200 goes on with the next one,
    having sent one request. *)
Lemma attempt_once_not_200 attempt w :
  0 <= attempt ->
  status_of (remote (session self) (length (sent w)) req) <> Some 200 ->
  exists w', attempt_once self req retries backoff attempt w = (inr None, w')
             /\ sent w' = sent w ++ [req].
Proof.
  intros Ha H. pose proof (wait_nonneg _ _ backoff_nonneg Ha) as Hw.
  unfold attempt_once, try_except, bind, send.
  destruct (remote (session self) (length (sent w)) req) as [detail|st body]; simpl in *.
  - rewrite sleep_nonneg by done. simpl. eauto.
  - destruct (Z.eqb_spec st 200) as [->|_]; [done|].
    destruct (Z.eqb_spec st 429) as [->|_].
    + rewrite sleep_nonneg by done. simpl. eauto.
    + unfold raise_for_status.
      destruct ((400 <=? st) && (st <? 600)); simpl.
      * rewrite sleep_nonneg by done. simpl. eauto.
      * eauto.
Qed.

(** Attempts of which none is answered with 200 end in the exhaustion error,
    one request sent for each. *)
Lemma attempts_exhausted todo w :
  Forall (fun attempt => 0 <= attempt) todo ->
  (forall i, (i < length todo)%nat ->
     status_of (remote (session self) (length (sent w) + i)%nat req) <> Some 200) ->
  exists w',
    attempts self req retries backoff todo w =
      (inl (RuntimeError (verb_name (req_verb req) +:+ " request to " +:+ req_url req
                          +:+ " failed after " +:+ show retries +:+ " attempts")), w')
    /\ sent w' = sent w ++ replicate (length todo) req.
Proof.
  intros Htodo. revert w.
  induction Htodo as [|attempt todo Ha _ IH]; intros w H; simpl.
  - exists w. split; [done|]. by rewrite app_nil_r.
  - destruct (attempt_once_not_200 attempt w Ha) as (w1 & E1 & S1).
    { specialize (H 0%nat). rewrite Nat.add_0_r in H. apply H. simpl. lia. }
    destruct (IH w1) as (w2 & E2 & S2).
    { intros i Hi. rewrite S1, length_app. simpl.
      replace (length (sent w) + 1 + i)%nat with (length (sent w) + S i)%nat by lia.
      apply H. simpl. lia. }
    exists w2. split.
    + unfold bind at 1. by rewrite E1.
    + rewrite S2, S1, <- app_assoc. done.
Qed.

(** 429, 429, then 200. *)
Lemma attempts_429_429_200 b1 b2 data w :
  3 <= retries ->
  remote (session self) (length (sent w)) req = Response 429 b1 ->
  remote (session self) (length (sent w) + 1)%nat req = Response 429 b2 ->
  remote (session self) (length (sent w) + 2)%nat req = Response 200 (inr data) ->
  exists w',
    attempts self req retries backoff (range 1 (retries + 1)) w = (inr data, w')
    /\ slept w' = slept w ++ [(backoff * inject_Z 1)%Q; (backoff * inject_Z 2)%Q]
    /\ sent w' = sent w ++ replicate 3 req.
Proof.
  intros Hr H1 H2 H3. unfold range.
  rewrite seqZ_cons by lia. rewrite seqZ_cons by lia. rewrite seqZ_cons by lia.
  cbn [attempts]. unfold bind at 1.
  rewrite (attempt_once_429 _ b1) by (done || lia).
  unfold bind at 1.
  rewrite (attempt_once_429 _ b2); [| lia |].
  2:{ cbn [sent]. rewrite length_app. exact H2. }
  unfold bind at 1.
  rewrite (attempt_once_200 _ data).
  2:{ cbn [sent]. rewrite !length_app. cbn [length].
      replace (length (sent w) + 1 + 1)%nat with (length (sent w) + 2)%nat by lia. exact H3. }
  eexists. split; [reflexivity|]. cbn [slept sent]. split.
  - by rewrite <- app_assoc.
  - by rewrite <- !app_assoc.
Qed.

End request_layer.

(** C3: when no attempt is answered with 200, [_get] and [_post] raise the
    exhaustion error after exactly [retries] attempts: [retries] requests were
    sent, and the message names the URL of the path and [retries].  [retries]
    is a count and [backoff] a duration, so neither is negative. *)
Theorem request_exhaustion self path params json_body retries backoff w :
  0 <= retries -> (0 <= backoff)%Q ->
  (forall i req, (i < Z.to_nat retries)%nat ->
     status_of (remote (session self) (length (sent w) + i)%nat req) <> Some 200) ->
  (exists w',
     _get self path params retries backoff w =
       (inl (RuntimeError ("GET request to " +:+ (base self +:+ path) +:+ " failed after "
                           +:+ show retries +:+ " attempts")), w')
     /\ sent w' = sent w ++ replicate (Z.to_nat retries) (get_request self path params))
  /\
  (exists w',
     _post self path json_body retries backoff w =
       (inl (RuntimeError ("POST request to " +:+ (base self +:+ path) +:+ " failed after "
                           +:+ show retries +:+ " attempts")), w')
     /\ sent w' = sent w ++ replicate (Z.to_nat retries) (post_request self path json_body)).
Proof.
  intros Hr Hb H. destruct (range_from_1 retries Hr) as [Hall Hlen].
  split.
  - destruct (attempts_exhausted self (get_request self path params) retries backoff
                Hb (range 1 (retries + 1)) w Hall) as (w' & E & S).
    { intros i Hi. apply H. lia. }
    exists w'. rewrite <- Hlen. split; [exact E | exact S].
  - destruct (attempts_exhausted self (post_request self path json_body) retries backoff
                Hb (range 1 (retries + 1)) w Hall) as (w' & E & S).
    { intros i Hi. apply H. lia. }
    exists w'. rewrite <- Hlen. split; [exact E | exact S].
Qed.

Lemma request_exhaustion_witness :
  (exists w',
     _get (client_of (scripted [] (Fault "timeout"))) "/domain/example.com/subdomains" None 3 1 fresh =
       (inl (RuntimeError
               "GET request to https://api.securitytrails.com/v1/domain/example.com/subdomains failed after 3 attempts"),
        w')
     /\ length (sent w') = 3%nat)
  /\
  (exists w',
     _post (client_of (scripted [Response 500 (inl TypeError); Response 429 (inr JNull)]
                         (Response 404 (inr JNull))))
       "/domains/list" (JObj []) 3 1 fresh =
       (inl (RuntimeError
               "POST request to https://api.securitytrails.com/v1/domains/list failed after 3 attempts"),
        w')
     /\ length (sent w') = 3%nat).
Proof.
  split.
  - destruct (request_exhaustion (client_of (scripted [] (Fault "timeout")))
                "/domain/example.com/subdomains" None (JObj []) 3 1 fresh)
      as [(w' & E & S) _]; [lia | done | by intros [|[|[|i]]] req Hi |].
    exists w'. split; [exact E | by rewrite S].
  - destruct (request_exhaustion
                (client_of (scripted [Response 500 (inl TypeError); Response 429 (inr JNull)]
                              (Response 404 (inr JNull))))
                "/domains/list" None (JObj []) 3 1 fresh)
      as [_ (w' & E & S)]; [lia | done | by intros [|[|[|i]]] req Hi |].
    exists w'. split; [exact E | by rewrite S].
Defined.

(** C6: with 429 on the first two attempts and 200 on the third, [_get] and
    [_post] return the decoded body of the 200 response, having slept
    [backoff * 1] and then [backoff * 2], which increase strictly when
    [backoff] is positive. *)
Theorem backoff_429_429_200 self path params json_body retries backoff b1 b2 data w :
  3 <= retries -> (0 <= backoff)%Q ->
  (forall req, remote (session self) (length (sent w)) req = Response 429 b1) ->
  (forall req, remote (session self) (length (sent w) + 1)%nat req = Response 429 b2) ->
  (forall req, remote (session self) (length (sent w) + 2)%nat req = Response 200 (inr data)) ->
  (exists w',
     _get self path params retries backoff w = (inr data, w')
     /\ slept w' = slept w ++ [(backoff * inject_Z 1)%Q; (backoff * inject_Z 2)%Q]
     /\ sent w' = sent w ++ replicate 3 (get_request self path params))
  /\
  (exists w',
     _post self path json_body retries backoff w = (inr data, w')
     /\ slept w' = slept w ++ [(backoff * inject_Z 1)%Q; (backoff * inject_Z 2)%Q]
     /\ sent w' = sent w ++ replicate 3 (post_request self path json_body))
  /\
  ((0 < backoff)%Q -> (backoff * inject_Z 1 < backoff * inject_Z 2)%Q).
Proof.
  intros Hr Hb H1 H2 H3. split; [|split].
  - by apply (attempts_429_429_200 _ _ _ _ Hb b1 b2).
  - by apply (attempts_429_429_200 _ _ _ _ Hb b1 b2).
  - intros Hpos. apply Qmult_lt_l; [exact Hpos|]. by rewrite <- Zlt_Qlt.
Qed.

Lemma backoff_429_429_200_witness :
  (exists w',
     _get (client_of (scripted [Response 429 (inr JNull); Response 429 (inr JNull);
                                Response 200 (inr (JObj [("subdomains", JArr [JStr "www"])]))]
                         (Fault "no more")))
       "/domain/example.com/subdomains" None 3 1 fresh
     = (inr (JObj [("subdomains", JArr [JStr "www"])]), w')
     /\ slept w' = [(1 * inject_Z 1)%Q; (1 * inject_Z 2)%Q])
  /\ (1 * inject_Z 1 < 1 * inject_Z 2)%Q.
Proof.
  destruct (backoff_429_429_200
              (client_of (scripted [Response 429 (inr JNull); Response 429 (inr JNull);
                                    Response 200 (inr (JObj [("subdomains", JArr [JStr "www"])]))]
                            (Fault "no more")))
              "/domain/example.com/subdomains" None (JObj []) 3 1 (inr JNull) (inr JNull)
              (JObj [("subdomains", JArr [JStr "www"])]) fresh)
    as ((w' & E & S & _) & _ & Hlt); [lia | done | done | done | done |].
  split; [exists w'; split; [exact E | exact S] | by apply Hlt].
Defined.

(** ** Construction *)

(** [client_of] is what the constructor builds. *)
Example init_client_of net w :
  __init__ ∅ net (Some "k") (DEFAULT_BASE +:+ "/") 15 w = (inr (client_of net), w).
Proof. reflexivity. Qed.

Lemma init_resolved environ net explicit base_url timeout w k :
  opt_or explicit (environ !! "SECURITYTRAILS_APIKEY") = Some k -> k <> "" ->
  exists self, __init__ environ net explicit base_url timeout w = (inr self, w)
               /\ api_key self = k.
Proof.
  intros Hk Hne. unfold __init__. rewrite Hk.
  apply nonempty_true in Hne. rewrite Hne. simpl. eauto.
Qed.

Lemma init_unresolved environ net explicit base_url timeout w :
  opt_truthy (opt_or explicit (environ !! "SECURITYTRAILS_APIKEY")) = false ->
  __init__ environ net explicit base_url timeout w =
    (inl (ValueError "SecurityTrails API key not provided. Set SECURITYTRAILS_APIKEY or pass api_key param."), w).
Proof.
  unfold __init__. destruct (opt_or _ _) as [k|]; simpl; [|done].
  by intros ->.
Qed.

(** C7: the credential is the explicit [api_key] when that is a non-empty
    string, and otherwise the value of SECURITYTRAILS_APIKEY when that is
    non-empty; construction raises its [ValueError] exactly when neither
    gives a non-empty credential; and it never sends a request, sleeps or
    retries: the world is left as it was. *)
Theorem init_credential environ net (explicit : option string) base_url timeout w :
  (forall k, explicit = Some k -> k <> "" ->
     exists self, __init__ environ net explicit base_url timeout w = (inr self, w)
                  /\ api_key self = k)
  /\
  (forall e, explicit = None \/ explicit = Some "" ->
     environ !! "SECURITYTRAILS_APIKEY" = Some e -> e <> "" ->
     exists self, __init__ environ net explicit base_url timeout w = (inr self, w)
                  /\ api_key self = e)
  /\
  ((exists err, fst (__init__ environ net explicit base_url timeout w) = inl err)
   <-> (explicit = None \/ explicit = Some "")
       /\ (environ !! "SECURITYTRAILS_APIKEY" = None
           \/ environ !! "SECURITYTRAILS_APIKEY" = Some ""))
  /\
  ((explicit = None \/ explicit = Some "")
   /\ (environ !! "SECURITYTRAILS_APIKEY" = None
       \/ environ !! "SECURITYTRAILS_APIKEY" = Some "") ->
   __init__ environ net explicit base_url timeout w =
     (inl (ValueError "SecurityTrails API key not provided. Set SECURITYTRAILS_APIKEY or pass api_key param."), w))
  /\
  snd (__init__ environ net explicit base_url timeout w) = w.
Proof.
  assert (Hfail : (explicit = None \/ explicit = Some "")
                  /\ (environ !! "SECURITYTRAILS_APIKEY" = None
                      \/ environ !! "SECURITYTRAILS_APIKEY" = Some "") ->
                  opt_truthy (opt_or explicit (environ !! "SECURITYTRAILS_APIKEY")) = false).
  { by intros [[-> | ->] [-> | ->]]. }
  split; [|split; [|split; [|split]]].
  - intros k -> Hk. apply init_resolved; [|done].
    unfold opt_or. simpl. apply nonempty_true in Hk. by rewrite Hk.
  - intros e Hx He Hne. apply init_resolved; [|done].
    rewrite He. by destruct Hx as [-> | ->].
  - split.
    + intros [err Herr].
      destruct explicit as [k|]; [destruct (String.eqb_spec k "") as [->|Hk]|].
      * split; [by right|].
        destruct (environ !! "SECURITYTRAILS_APIKEY") as [e|] eqn:He; [|by left].
        destruct (String.eqb_spec e "") as [->|Hne]; [by right|].
        destruct (init_resolved environ net (Some "") base_url timeout w e) as (self & E & _);
          [by rewrite He | done |].
        rewrite E in Herr. discriminate.
      * destruct (init_resolved environ net (Some k) base_url timeout w k) as (self & E & _);
          [|done|].
        { unfold opt_or. simpl. apply nonempty_true in Hk. by rewrite Hk. }
        rewrite E in Herr. discriminate.
      * split; [by left|].
        destruct (environ !! "SECURITYTRAILS_APIKEY") as [e|] eqn:He; [|by left].
        destruct (String.eqb_spec e "") as [->|Hne]; [by right|].
        destruct (init_resolved environ net None base_url timeout w e) as (self & E & _);
          [by rewrite He | done |].
        rewrite E in Herr. discriminate.
    + intros H. rewrite init_unresolved by by apply Hfail. eauto.
  - intros H. apply init_unresolved. by apply Hfail.
  - unfold __init__. destruct (opt_or _ _) as [k|]; [|done]. by destruct (nonempty k).
Qed.

Lemma init_credential_witness :
  (exists self,
     __init__ {["SECURITYTRAILS_APIKEY" := "from-env"]} (scripted [] (Fault "down"))
       (Some "explicit") DEFAULT_BASE 15 fresh = (inr self, fresh)
     /\ api_key self = "explicit")
  /\
  (exists self,
     __init__ {["SECURITYTRAILS_APIKEY" := "from-env"]} (scripted [] (Fault "down"))
       None DEFAULT_BASE 15 fresh = (inr self, fresh)
     /\ api_key self = "from-env")
  /\
  __init__ ∅ (scripted [] (Fault "down")) None DEFAULT_BASE 15 fresh =
    (inl (ValueError "SecurityTrails API key not provided. Set SECURITYTRAILS_APIKEY or pass api_key param."), fresh).
Proof.
  split; [|split].
  - destruct (init_credential {["SECURITYTRAILS_APIKEY" := "from-env"]}
                (scripted [] (Fault "down")) (Some "explicit") DEFAULT_BASE 15 fresh)
      as (H & _).
    by apply H.
  - destruct (init_credential {["SECURITYTRAILS_APIKEY" := "from-env"]}
                (scripted [] (Fault "down")) None DEFAULT_BASE 15 fresh)
      as (_ & H & _).
    apply H; [by left | reflexivity | done].
  - destruct (init_credential ∅ (scripted [] (Fault "down")) None DEFAULT_BASE 15 fresh)
      as (_ & _ & _ & H & _).
    apply H. split; left; reflexivity.
Defined.

(** C10: an explicit [api_key] that is the empty string is treated as no
    [api_key] at all: construction does what it does for [None], and so takes
    the credential from SECURITYTRAILS_APIKEY whenever that is non-empty. *)
Theorem init_empty_api_key environ net base_url timeout w :
  __init__ environ net (Some "") base_url timeout w
  = __init__ environ net None base_url timeout w
  /\
  (forall e, environ !! "SECURITYTRAILS_APIKEY" = Some e -> e <> "" ->
     exists self, __init__ environ net (Some "") base_url timeout w = (inr self, w)
                  /\ api_key self = e).
Proof.
  split; [reflexivity|].
  intros e He Hne. apply init_resolved; [|done]. by rewrite He.
Qed.

Lemma init_empty_api_key_witness :
  exists self,
    __init__ {["SECURITYTRAILS_APIKEY" := "from-env"]} (scripted [] (Fault "down"))
      (Some "") DEFAULT_BASE 15 fresh = (inr self, fresh)
    /\ api_key self = "from-env".
Proof.
  destruct (init_empty_api_key {["SECURITYTRAILS_APIKEY" := "from-env"]}
              (scripted [] (Fault "down")) DEFAULT_BASE 15 fresh) as (_ & H).
  apply H; [reflexivity | done].
Defined.

(** ** list_subdomains *)

(** The call of [_get] in [list_subdomains] comes after a log line, and
    returns what it returns without. *)
Lemma list_subdomains_get self domain data w :
  fst (_get self ("/domain/" +:+ domain +:+ "/subdomains") None 3 1 w) = inr data ->
  exists w1,
    _get self ("/domain/" +:+ domain +:+ "/subdomains") None 3 1
      {| sent := sent w; slept := slept w;
         logged := logged w ++ [(INFO, RequestingSubdomains domain)] |}
    = (inr data, w1).
Proof.
  intros H. unfold _get in *.
  rewrite (attempts_same_sent _ _ _ _ _ w
             {| sent := sent w; slept := slept w;
                logged := logged w ++ [(INFO, RequestingSubdomains domain)] |})
    in H by reflexivity.
  destruct (attempts _ _ _ _ _ _) as [r w1]. cbn [fst] in H. subst r. by exists w1.
Qed.

(** What [list_subdomains] does with the body [data] the request layer
    returns, in the two branches of its test on the shape of [data]. *)
Lemma list_subdomains_unexpected self domain data w :
  fst (_get self ("/domain/" +:+ domain +:+ "/subdomains") None 3 1 w) = inr data ->
  has_subdomains data = false ->
  fst (list_subdomains self domain w) = inr ([], data).
Proof.
  intros H Hshape. apply list_subdomains_get in H as [w1 H].
  unfold list_subdomains. unfold bind at 1. cbn [log]. unfold bind at 1.
  rewrite H, Hshape. reflexivity.
Qed.

Lemma list_subdomains_parsed self domain fields field fragments names w :
  fst (_get self ("/domain/" +:+ domain +:+ "/subdomains") None 3 1 w) = inr (JObj fields) ->
  lookup_field "subdomains" fields = Some field ->
  py_iter field = inr fragments ->
  collect_fragments domain fragments [] = inr names ->
  fst (list_subdomains self domain w) = inr (sorted (list_to_set names), JObj fields).
Proof.
  intros H Hfield Hiter Hnames. apply list_subdomains_get in H as [w1 H].
  unfold list_subdomains. unfold bind at 1. cbn [log]. unfold bind at 1.
  rewrite H. cbn [has_subdomains py_get]. unfold has_key, dict_get. rewrite Hfield.
  unfold bind, lift, ret. rewrite Hiter, Hnames. reflexivity.
Qed.

(** The hostname a fragment gives, if any. *)
Lemma collect_fragments_step domain s rest subdomains :
  collect_fragments domain (JStr s :: rest) subdomains =
  collect_fragments domain rest
    (if nonempty s
     then subdomains ++ [if endswith s domain then s else s +:+ "." +:+ domain]
     else subdomains).
Proof.
  cbn [collect_fragments full_name].
  destruct s as [|a s]; destruct (endswith _ domain); reflexivity.
Qed.

Lemma collect_fragments_strings domain (fragments : list string) subdomains :
  collect_fragments domain (map JStr fragments) subdomains =
  inr (subdomains ++
       omap (fun s => if nonempty s
                      then Some (if endswith s domain then s else s +:+ "." +:+ domain)
                      else None) fragments).
Proof.
  revert subdomains. induction fragments as [|s fragments IH]; intros subdomains.
  - simpl. by rewrite app_nil_r.
  - cbn [map]. rewrite collect_fragments_step, IH. cbn [omap list_omap].
    destruct (nonempty s); [|done]. by rewrite <- app_assoc.
Qed.

(** C2: an empty fragment gives no hostname; a non-empty fragment that ends
    with the domain gives itself; any other fragment [s] gives
    [s + "." + domain].  So the hostnames [list_subdomains] returns, when the
    request layer returns a body with a [subdomains] field of fragment
    strings, are exactly these, sorted and without duplicate, and for the
    fragments ["www"], ["api.example.com"] and [""] of example.com they are
    ["api.example.com"] and ["www.example.com"]. *)
Theorem list_subdomains_fragments :
  (forall domain rest subdomains,
     collect_fragments domain (JStr "" :: rest) subdomains
     = collect_fragments domain rest subdomains)
  /\
  (forall domain s rest subdomains,
     s <> "" -> endswith s domain = true ->
     collect_fragments domain (JStr s :: rest) subdomains
     = collect_fragments domain rest (subdomains ++ [s]))
  /\
  (forall domain s rest subdomains,
     s <> "" -> endswith s domain = false ->
     collect_fragments domain (JStr s :: rest) subdomains
     = collect_fragments domain rest (subdomains ++ [s +:+ "." +:+ domain]))
  /\
  (forall self domain fields (fragments : list string) w,
     fst (_get self ("/domain/" +:+ domain +:+ "/subdomains") None 3 1 w)
     = inr (JObj fields) ->
     lookup_field "subdomains" fields = Some (JArr (map JStr fragments)) ->
     exists hosts,
       fst (list_subdomains self domain w) = inr (hosts, JObj fields)
       /\ NoDup hosts /\ StronglySorted String.le hosts
       /\ forall h, h ∈ hosts <->
            exists s, s ∈ fragments /\ s <> ""
                      /\ h = if endswith s domain then s else s +:+ "." +:+ domain)
  /\
  (forall self w,
     fst (_get self "/domain/example.com/subdomains" None 3 1 w)
     = inr (JObj [("subdomains", JArr [JStr "www"; JStr "api.example.com"; JStr ""])]) ->
     fst (list_subdomains self "example.com" w)
     = inr (["api.example.com"; "www.example.com"],
            JObj [("subdomains", JArr [JStr "www"; JStr "api.example.com"; JStr ""])])).
Proof.
  split; [|split; [|split; [|split]]].
  - intros domain rest subdomains. by rewrite collect_fragments_step.
  - intros domain s rest subdomains Hs He. rewrite collect_fragments_step, He.
    apply nonempty_true in Hs. by rewrite Hs.
  - intros domain s rest subdomains Hs He. rewrite collect_fragments_step, He.
    apply nonempty_true in Hs. by rewrite Hs.
  - intros self domain fields fragments w H Hfield.
    eexists. split; [|split; [|split]].
    + eapply list_subdomains_parsed; [exact H | exact Hfield | reflexivity |].
      apply collect_fragments_strings.
    + apply NoDup_sorted.
    + apply StronglySorted_sorted.
    + intros h. rewrite elem_of_sorted, elem_of_list_to_set. cbn [app].
      rewrite list_elem_of_omap. split.
      * intros (s & Hin & Hs). destruct (nonempty s) eqn:Hne; [|done].
        exists s. split; [done|]. split; [by apply nonempty_true | congruence].
      * intros (s & Hin & Hne & ->). exists s. split; [done|].
        apply nonempty_true in Hne. by rewrite Hne.
  - intros self w H.
    rewrite (list_subdomains_parsed self "example.com" _
               (JArr [JStr "www"; JStr "api.example.com"; JStr ""])
               [JStr "www"; JStr "api.example.com"; JStr ""]
               ["www.example.com"; "api.example.com"] w H) by reflexivity.
    vm_compute. reflexivity.
Qed.

Lemma list_subdomains_fragments_witness :
  fst (list_subdomains
         (client_of (scripted [Response 200 (inr (JObj [("subdomains",
                                 JArr [JStr "www"; JStr "api.example.com"; JStr ""])]))]
                       (Fault "down")))
         "example.com" fresh)
  = inr (["api.example.com"; "www.example.com"],
         JObj [("subdomains", JArr [JStr "www"; JStr "api.example.com"; JStr ""])]).
Proof.
  destruct list_subdomains_fragments as (_ & _ & _ & _ & H).
  apply H. reflexivity.
Defined.

(** C8: when the body that the request layer returns, which is the decoded
    body of a 200 response, is not a dict with a [subdomains] key,
    [list_subdomains] does not raise: it returns the empty list of hostnames
    and the body as it came. *)
Theorem list_subdomains_unexpected_shape self domain data w :
  fst (_get self ("/domain/" +:+ domain +:+ "/subdomains") None 3 1 w) = inr data ->
  (forall fields, data = JObj fields -> lookup_field "subdomains" fields = None) ->
  fst (list_subdomains self domain w) = inr ([], data).
Proof.
  intros H Hshape. apply list_subdomains_unexpected; [exact H|].
  destruct data as [| | | | |fields]; try reflexivity.
  cbn [has_subdomains]. unfold has_key. by rewrite (Hshape fields).
Qed.

Lemma list_subdomains_unexpected_shape_witness :
  fst (list_subdomains
         (client_of (scripted [Response 200 (inr (JObj [("message", JStr "quota exceeded")]))]
                       (Fault "down")))
         "example.com" fresh)
  = inr ([], JObj [("message", JStr "quota exceeded")])
  /\
  fst (list_subdomains
         (client_of (scripted [Response 200 (inr (JArr [JStr "www"]))] (Fault "down")))
         "example.com" fresh)
  = inr ([], JArr [JStr "www"]).
Proof.
  split.
  - apply (list_subdomains_unexpected_shape _ "example.com"
             (JObj [("message", JStr "quota exceeded")]) fresh).
    + reflexivity.
    + intros fields [= <-]. reflexivity.
  - apply (list_subdomains_unexpected_shape _ "example.com" (JArr [JStr "www"]) fresh).
    + reflexivity.
    + intros fields [=].
Defined.

(** ** search_subdomains *)

(** One record whose [hostname] is a non-empty string: the [domain] field is
    not looked at. *)
Lemma collect_records_hostname domain fields h rest all_subdomains :
  lookup_field "hostname" fields = Some (JStr h) -> h <> "" ->
  collect_records domain (JObj fields :: rest) all_subdomains =
  collect_records domain rest
    (if endswith h domain then {[h]} ∪ all_subdomains else all_subdomains).
Proof.
  intros Hh Hne. apply nonempty_true in Hne.
  cbn [collect_records candidate py_get]. unfold dict_get. rewrite Hh.
  cbn [truthy]. rewrite Hne. unfold add_candidate. cbn [truthy]. by rewrite Hne.
Qed.

(** One record whose [hostname] is absent, null or empty: the [domain] field
    is the candidate. *)
Lemma collect_records_domain domain fields rest all_subdomains :
  lookup_field "hostname" fields = None
  \/ lookup_field "hostname" fields = Some JNull
  \/ lookup_field "hostname" fields = Some (JStr "") ->
  collect_records domain (JObj fields :: rest) all_subdomains =
  match add_candidate domain (dict_get "domain" fields JNull) all_subdomains with
  | inl e => inl e
  | inr all_subdomains' => collect_records domain rest all_subdomains'
  end.
Proof.
  intros Hh. cbn [collect_records candidate py_get]. unfold dict_get at 1.
  by destruct Hh as [-> | [-> | ->]].
Qed.

Lemma add_candidate_string domain g all_subdomains :
  add_candidate domain (JStr g) all_subdomains =
  inr (if nonempty g && endswith g domain then {[g]} ∪ all_subdomains else all_subdomains).
Proof. unfold add_candidate. cbn [truthy]. by destruct (nonempty g). Qed.

Lemma candidate_record r :
  is_record r = true ->
  candidate r = inr JNull \/ exists h, candidate r = inr (JStr h).
Proof.
  destruct r as [| | | | |fields]; try discriminate.
  cbn [is_record candidate py_get]. intros [H1 H2]%andb_prop.
  destruct (dict_get "hostname" fields JNull) as [| | |h| |]; try discriminate.
  - cbn [truthy].
    destruct (dict_get "domain" fields JNull) as [| | |g| |]; try discriminate; eauto.
  - cbn [truthy]. destruct (nonempty h); [eauto|].
    destruct (dict_get "domain" fields JNull) as [| | |g| |]; try discriminate; eauto.
Qed.

(** The loop over the records of a page as the API documents it: it adds the
    candidates that are non-empty and end with the domain, and nothing
    else. *)
Lemma collect_records_page domain items all_subdomains :
  forallb is_record items = true ->
  exists all_subdomains',
    collect_records domain items all_subdomains = inr all_subdomains'
    /\ forall h, h ∈ all_subdomains' <->
         h ∈ all_subdomains
         \/ exists r, r ∈ items /\ candidate r = inr (JStr h)
                      /\ h <> "" /\ endswith h domain = true.
Proof.
  revert all_subdomains. induction items as [|r items IH]; intros acc Hok.
  - exists acc. split; [done|]. intros h. split; [auto|].
    intros [?|(r & Hr & _)]; [done | inversion Hr].
  - cbn [forallb] in Hok. apply andb_prop in Hok as [Hr Hitems].
    cbn [collect_records].
    destruct (candidate_record r Hr) as [E | [g E]]; rewrite E.
    + cbn [add_candidate truthy].
      destruct (IH acc Hitems) as (acc' & E' & Hacc'). exists acc'. split; [done|].
      intros h. rewrite Hacc'. split.
      * intros [?|(r' & Hin & ?)]; [auto|]. right. exists r'. split; [by right | done].
      * intros [?|(r' & Hin & Hc & ?)]; [auto|].
        apply elem_of_cons in Hin as [->|Hin]; [congruence|]. right. eauto.
    + rewrite add_candidate_string.
      destruct (IH (if nonempty g && endswith g domain then {[g]} ∪ acc else acc) Hitems)
        as (acc' & E' & Hacc').
      exists acc'. split; [done|]. intros h. rewrite Hacc'. split.
      * intros [Hh|(r' & Hin & ?)]; [| right; exists r'; split; [by right | done]].
        destruct (nonempty g) eqn:Hg; [destruct (endswith g domain) eqn:He|];
          cbn [andb] in Hh; auto.
        apply elem_of_union in Hh as [->%elem_of_singleton|?]; [|auto].
        right. exists r. split; [by left|]. split; [done|]. split; [|done].
        by apply nonempty_true.
      * intros [?|(r' & Hin & Hc & Hne & He)].
        { left. destruct (nonempty g && endswith g domain); [|done].
          apply elem_of_union. auto. }
        apply elem_of_cons in Hin as [->|Hin]; [|right; eauto].
        left. rewrite E in Hc. injection Hc as ->.
        apply nonempty_true in Hne. rewrite Hne, He. cbn [andb].
        apply elem_of_union. left. by apply elem_of_singleton.
Qed.

Lemma page_records_inv resp items :
  page_records resp = Some items ->
  exists fields, resp = JObj fields
                 /\ dict_get "records" fields (JArr []) = JArr items
                 /\ forallb is_record items = true.
Proof.
  destruct resp as [| | | | |fields]; try discriminate. cbn [page_records].
  destruct (dict_get "records" fields (JArr [])) as [| | | |l|] eqn:Hrec; try discriminate.
  destruct (forallb is_record l) eqn:Hl; [|discriminate].
  intros [= <-]. exists fields. by rewrite Hrec.
Qed.

(** One turn of the loop over the pages, for a page answered with 200 at the
    first attempt. *)
Lemma search_pages_step self domain page_size page todo all_subdomains raw_pages w
    resp items all_subdomains' :
  remote (session self) (length (sent w)) (search_request self domain page_size page)
    = Response 200 (inr resp) ->
  page_records resp = Some items ->
  collect_records domain items all_subdomains = inr all_subdomains' ->
  search_pages self domain page_size (page :: todo) all_subdomains raw_pages w =
  if bool_decide (items = [])
  then (inr (all_subdomains', raw_pages ++ [resp]),
        {| sent := sent w ++ [search_request self domain page_size page];
           slept := slept w;
           logged := logged w ++ [(INFO, FetchingPage page)] ++ [(INFO, NoMoreRecords)] |})
  else search_pages self domain page_size todo all_subdomains' (raw_pages ++ [resp])
         {| sent := sent w ++ [search_request self domain page_size page];
            slept := slept w ++ [3 # 10];
            logged := logged w ++ [(INFO, FetchingPage page)] |}.
Proof.
  intros H Hpage Hacc. apply page_records_inv in Hpage as (fields & -> & Hrec & _).
  cbn [search_pages]. unfold bind at 1. cbn [log]. unfold bind at 1. unfold _post.
  rewrite (attempts_first_200 _ _ _ _ (JObj fields)) by (lia || exact H).
  cbn [py_get]. rewrite Hrec. unfold bind, lift, ret. cbn [py_iter]. rewrite Hacc.
  cbn [truthy sent slept logged].
  destruct (bool_decide (items = [])); cbn [negb].
  - unfold log. cbn [sent slept logged]. by rewrite <- app_assoc.
  - unfold sleep. change (Qle_bool 0 (3 # 10)) with true. cbv iota. reflexivity.
Qed.

(** The turns of the loop that get pages with records, each answered with
    200 at the first attempt. *)
Lemma search_pages_full_pages self domain page_size front :
  forall todo rest all_subdomains raw_pages w,
  length todo = length front ->
  Forall is_full_page front ->
  (forall i resp, front !! i = Some resp ->
     forall req, remote (session self) (length (sent w) + i)%nat req = Response 200 (inr resp)) ->
  exists all_subdomains' w',
    search_pages self domain page_size (todo ++ rest) all_subdomains raw_pages w
    = search_pages self domain page_size rest all_subdomains' (raw_pages ++ front) w'
    /\ sent w' = sent w ++ map (search_request self domain page_size) todo
    /\ page_fetches w' = (page_fetches w + length todo)%nat
    /\ forall h, h ∈ all_subdomains' <->
         h ∈ all_subdomains
         \/ exists r, r ∈ all_records front /\ candidate r = inr (JStr h)
                      /\ h <> "" /\ endswith h domain = true.
Proof.
  induction front as [|resp front IH]; intros todo rest acc raw w Hlen Hfull H.
  - destruct todo; [|discriminate]. exists acc, w. cbn [app map].
    rewrite !app_nil_r, Nat.add_0_r. split; [done|]. split; [done|]. split; [done|].
    intros h. split; [auto|]. intros [?|(r & Hr & _)]; [done | inversion Hr].
  - destruct todo as [|page todo]; [discriminate|]. injection Hlen as Hlen.
    apply Forall_cons in Hfull as [(items & Hpage & Hne) Hfull].
    destruct (page_records_inv _ _ Hpage) as (fields & _ & _ & Hok).
    destruct (collect_records_page domain items acc Hok) as (acc1 & Hacc1 & Hin1).
    cbn [app].
    rewrite (search_pages_step _ _ _ _ _ _ _ _ resp items acc1); [| |done|done].
    2:{ specialize (H 0%nat resp eq_refl). rewrite Nat.add_0_r in H. apply H. }
    rewrite bool_decide_false by done.
    destruct (IH todo rest acc1 (raw ++ [resp])
                {| sent := sent w ++ [search_request self domain page_size page];
                   slept := slept w ++ [3 # 10];
                   logged := logged w ++ [(INFO, FetchingPage page)] |})
      as (acc2 & w2 & E & S & F & Hin2); [exact Hlen | exact Hfull | | ].
    { intros i resp' Hi req. cbn [sent]. rewrite length_app. cbn [length].
      replace (length (sent w) + 1 + i)%nat with (length (sent w) + S i)%nat by lia.
      by apply H. }
    exists acc2, w2. split; [|split; [|split]].
    + rewrite E. by rewrite <- app_assoc.
    + rewrite S. cbn [sent map]. by rewrite <- app_assoc.
    + rewrite F. unfold page_fetches. cbn [logged length].
      rewrite count_fetches_app. cbn [count_fetches]. lia.
    + intros h. rewrite Hin2, Hin1. unfold all_records. cbn [flat_map].
      rewrite Hpage. cbn [default]. split.
      * intros [[?|(r & Hr & ?)]|(r & Hr & ?)]; [auto| |].
        -- right. exists r. split; [|done]. apply elem_of_app. by left.
        -- right. exists r. split; [|done]. apply elem_of_app. by right.
      * intros [?|(r & Hr & ?)]; [auto|].
        apply elem_of_app in Hr as [Hr|Hr]; [left; right | right]; eauto.
Qed.

(** The run of [search_subdomains] over pages with records followed by a
    page without: it stops there. *)
Lemma search_subdomains_until_empty self domain page_size max_pages front last w :
  Z.of_nat (length front) < max_pages ->
  Forall is_full_page front ->
  page_records last = Some [] ->
  (forall i resp, (front ++ [last]) !! i = Some resp ->
     forall req, remote (session self) (length (sent w) + i)%nat req = Response 200 (inr resp)) ->
  exists found w',
    search_subdomains self domain page_size max_pages w
    = (inr (sorted found, JObj [("pages", JArr (front ++ [last]))]), w')
    /\ sent w' = sent w ++ map (search_request self domain page_size)
                             (seqZ 1 (Z.of_nat (length front) + 1))
    /\ page_fetches w' = (page_fetches w + length front + 1)%nat
    /\ forall h, h ∈ found <->
         exists r, r ∈ all_records front /\ candidate r = inr (JStr h)
                   /\ h <> "" /\ endswith h domain = true.
Proof.
  intros Hk Hfull Hlast H.
  set (k := Z.of_nat (length front)) in *.
  unfold search_subdomains, range.
  replace (max_pages + 1 - 1) with (k + (max_pages - k)) by lia.
  rewrite seqZ_app by lia. rewrite (seqZ_cons (1 + k)) by lia.
  destruct (search_pages_full_pages self domain page_size front (seqZ 1 k)
              ((1 + k) :: seqZ (Z.succ (1 + k)) (Z.pred (max_pages - k))) ∅ [] w)
    as (found & w1 & E & S & F & Hin); [| exact Hfull | |].
  { rewrite length_seqZ. unfold k. lia. }
  { intros i resp Hi. apply H. by apply lookup_app_l_Some. }
  unfold bind at 1. rewrite E.
  rewrite (search_pages_step _ _ _ _ _ _ _ _ last [] found); [| | exact Hlast | done].
  2:{ rewrite S, length_app, length_map, length_seqZ. apply H.
      replace (Z.to_nat k) with (length front) by (unfold k; lia).
      rewrite lookup_app_r by lia. by rewrite Nat.sub_diag. }
  rewrite bool_decide_true by done. cbn [app].
  exists found. eexists. split; [reflexivity|]. cbn [log sent logged snd fst].
  split; [|split].
  - rewrite S, <- app_assoc. f_equal.
    replace (k + 1) with (Z.of_nat (Datatypes.S (length front))) by (unfold k; lia).
    rewrite seqZ_S, map_app. done.
  - unfold page_fetches in *. cbn [logged]. rewrite !count_fetches_app, F, length_seqZ.
    cbn [count_fetches]. unfold k. lia.
  - intros h. rewrite Hin. split; [intros [?|?]; [done|auto] | auto].
Qed.

(** The run of [search_subdomains] when every page up to [max_pages] has
    records: it stops after page [max_pages]. *)
Lemma search_subdomains_all_full self domain page_size max_pages front w :
  Z.of_nat (length front) = max_pages ->
  Forall is_full_page front ->
  (forall i resp, front !! i = Some resp ->
     forall req, remote (session self) (length (sent w) + i)%nat req = Response 200 (inr resp)) ->
  exists found w',
    search_subdomains self domain page_size max_pages w
    = (inr (sorted found, JObj [("pages", JArr front)]), w')
    /\ sent w' = sent w ++ map (search_request self domain page_size) (seqZ 1 max_pages)
    /\ page_fetches w' = (page_fetches w + Z.to_nat max_pages)%nat.
Proof.
  intros Hk Hfull H. unfold search_subdomains, range.
  replace (max_pages + 1 - 1) with max_pages by lia.
  destruct (search_pages_full_pages self domain page_size front (seqZ 1 max_pages) [] ∅ [] w)
    as (found & w1 & E & S & F & Hin); [| exact Hfull | exact H |].
  { rewrite length_seqZ. lia. }
  rewrite app_nil_r in E. unfold bind at 1. rewrite E. cbn [search_pages ret app].
  exists found. eexists. split; [reflexivity|]. cbn [log sent logged snd fst].
  split; [done|].
  unfold page_fetches in *. cbn [logged]. rewrite count_fetches_app, F, length_seqZ.
  cbn [count_fetches]. lia.
Qed.

(** *** The number of page requests, whatever the remote side does *)

Lemma search_pages_fetches self domain page_size todo all_subdomains raw_pages w :
  (page_fetches (snd (search_pages self domain page_size todo all_subdomains raw_pages w))
   <= page_fetches w + length todo)%nat.
Proof.
  revert all_subdomains raw_pages w.
  induction todo as [|page todo IH]; intros acc raw w; [cbn; lia|].
  cbn [search_pages length]. unfold bind at 1. cbn [log]. unfold bind at 1, _post.
  match goal with |- context [attempts ?s ?r ?n ?b ?t ?w1] =>
    pose proof (attempts_fetches s r n b t w1) as H;
    destruct (attempts s r n b t w1) as [[e|resp] w2] end;
    cbn [snd] in *; unfold page_fetches in H; cbn [logged] in H;
    rewrite count_fetches_app in H; cbn [count_fetches] in H.
  - unfold page_fetches in *. lia.
  - unfold bind, lift, raise, ret, log, sleep.
    destruct (py_get resp "records" (JArr [])) as [e|records]; cbn [snd];
      [unfold page_fetches in *; lia|].
    destruct (py_iter records) as [e|items]; cbn [snd]; [unfold page_fetches in *; lia|].
    destruct (collect_records domain items acc) as [e|acc']; cbn [snd];
      [unfold page_fetches in *; lia|].
    destruct (negb (truthy records)); cbn [snd].
    + unfold page_fetches in *. cbn [logged]. rewrite count_fetches_app.
      cbn [count_fetches]. lia.
    + change (Qle_bool 0 (3 # 10)) with true. cbv iota.
      etrans; [apply IH|]. unfold page_fetches in *. cbn [logged]. lia.
Qed.

(** [search_subdomains] asks for at most [max_pages] pages. *)
Lemma search_subdomains_fetches self domain page_size max_pages w :
  (page_fetches (snd (search_subdomains self domain page_size max_pages w))
   <= page_fetches w + Z.to_nat max_pages)%nat.
Proof.
  unfold search_subdomains, bind.
  pose proof (search_pages_fetches self domain page_size (range 1 (max_pages + 1)) ∅ [] w) as H.
  unfold range in H. rewrite length_seqZ in H.
  replace (Z.to_nat (max_pages + 1 - 1)) with (Z.to_nat max_pages) in H by lia.
  destruct (search_pages _ _ _ _ _ _ w) as [[e|found] w1]; cbn [snd] in *; [done|].
  unfold log, ret, page_fetches in *. cbn [snd logged].
  rewrite count_fetches_app. cbn [count_fetches]. lia.
Qed.

(** C4: with records on the first two pages and none on the third,
    [search_subdomains] sends the requests for pages 1, 2 and 3 and stops,
    whatever [max_pages] from 3 on; in general it stops at the first page
    without records, after page [max_pages] when all pages have records, and
    whatever the remote side answers it never asks for more than [max_pages]
    pages ([page_fetches] counts the calls of [_post] for a page). *)
Theorem pagination_stops self domain page_size max_pages w :
  (forall p1 p2 p3,
     3 <= max_pages ->
     is_full_page p1 -> is_full_page p2 -> page_records p3 = Some [] ->
     (forall req, remote (session self) (length (sent w)) req = Response 200 (inr p1)) ->
     (forall req, remote (session self) (length (sent w) + 1)%nat req = Response 200 (inr p2)) ->
     (forall req, remote (session self) (length (sent w) + 2)%nat req = Response 200 (inr p3)) ->
     exists hosts w',
       search_subdomains self domain page_size max_pages w
       = (inr (hosts, JObj [("pages", JArr [p1; p2; p3])]), w')
       /\ sent w' = sent w ++ [search_request self domain page_size 1;
                               search_request self domain page_size 2;
                               search_request self domain page_size 3]
       /\ page_fetches w' = (page_fetches w + 3)%nat)
  /\
  (forall front last,
     Z.of_nat (length front) < max_pages ->
     Forall is_full_page front -> page_records last = Some [] ->
     (forall i resp, (front ++ [last]) !! i = Some resp ->
        forall req, remote (session self) (length (sent w) + i)%nat req
                    = Response 200 (inr resp)) ->
     exists hosts w',
       search_subdomains self domain page_size max_pages w
       = (inr (hosts, JObj [("pages", JArr (front ++ [last]))]), w')
       /\ sent w' = sent w ++ map (search_request self domain page_size)
                                (seqZ 1 (Z.of_nat (length front) + 1))
       /\ page_fetches w' = (page_fetches w + length front + 1)%nat)
  /\
  (forall front,
     Z.of_nat (length front) = max_pages ->
     Forall is_full_page front ->
     (forall i resp, front !! i = Some resp ->
        forall req, remote (session self) (length (sent w) + i)%nat req
                    = Response 200 (inr resp)) ->
     exists hosts w',
       search_subdomains self domain page_size max_pages w
       = (inr (hosts, JObj [("pages", JArr front)]), w')
       /\ sent w' = sent w ++ map (search_request self domain page_size) (seqZ 1 max_pages)
       /\ page_fetches w' = (page_fetches w + Z.to_nat max_pages)%nat)
  /\
  (page_fetches (snd (search_subdomains self domain page_size max_pages w))
   <= page_fetches w + Z.to_nat max_pages)%nat.
Proof.
  split; [|split; [|split]].
  - intros p1 p2 p3 Hmax Hp1 Hp2 Hp3 H1 H2 H3.
    destruct (search_subdomains_until_empty self domain page_size max_pages [p1; p2] p3 w)
      as (found & w' & E & S & F & _); [cbn; lia | by repeat constructor | done | |].
    { intros [|[|[|i]]] resp [= <-] req; [| |].
      - rewrite Nat.add_0_r. apply H1.
      - apply H2.
      - apply H3. }
    exists (sorted found), w'. split; [exact E|]. split; [exact S|].
    rewrite F. cbn [length]. lia.
  - intros front last Hk Hfull Hlast H.
    destruct (search_subdomains_until_empty self domain page_size max_pages front last w)
      as (found & w' & E & S & F & _); [done..|].
    exists (sorted found), w'. split; [exact E|]. split; [exact S | exact F].
  - intros front Hk Hfull H.
    destruct (search_subdomains_all_full self domain page_size max_pages front w)
      as (found & w' & E & S & F); [done..|].
    exists (sorted found), w'. split; [exact E|]. split; [exact S | exact F].
  - apply search_subdomains_fetches.
Qed.

Lemma pagination_stops_witness :
  exists hosts w',
    search_subdomains (client_of (scripted [Response 200 (inr page_www_api);
                                            Response 200 (inr page_mail);
                                            Response 200 (inr page_end)]
                                    (Response 200 (inr page_www_api))))
      "example.com" 100 10 fresh
    = (inr (hosts, JObj [("pages", JArr [page_www_api; page_mail; page_end])]), w')
    /\ length (sent w') = 3%nat.
Proof.
  destruct (pagination_stops
              (client_of (scripted [Response 200 (inr page_www_api);
                                    Response 200 (inr page_mail);
                                    Response 200 (inr page_end)]
                            (Response 200 (inr page_www_api))))
              "example.com" 100 10 fresh) as (H & _).
  destruct (H page_www_api page_mail page_end) as (hosts & w' & E & S & _).
  - lia.
  - eexists. split; [reflexivity | done].
  - eexists. split; [reflexivity | done].
  - reflexivity.
  - intros req. reflexivity.
  - intros req. reflexivity.
  - intros req. reflexivity.
  - exists hosts, w'. split; [exact E | by rewrite S].
Defined.

(** The loop over the records, when it does not raise: it adds the
    candidates that are non-empty strings and end with the domain, and nothing
    else. *)
Lemma collect_records_hosts domain items all_subdomains all_subdomains' :
  collect_records domain items all_subdomains = inr all_subdomains' ->
  forall h, h ∈ all_subdomains' <->
    h ∈ all_subdomains
    \/ exists r, r ∈ items /\ candidate r = inr (JStr h)
                 /\ h <> "" /\ endswith h domain = true.
Proof.
  revert all_subdomains. induction items as [|r items IH]; intros acc.
  - intros [= <-] h. split; [auto|]. intros [?|(r & Hr & _)]; [done | inversion Hr].
  - cbn [collect_records]. destruct (candidate r) as [e|v] eqn:Hc; [discriminate|].
    destruct (add_candidate domain v acc) as [e|acc1] eqn:Hadd; [discriminate|].
    intros H h. rewrite (IH _ H h). clear IH H.
    assert (Hstep : h ∈ acc1 <->
              h ∈ acc \/ (v = JStr h /\ h <> "" /\ endswith h domain = true)).
    { unfold add_candidate in Hadd. destruct (truthy v) eqn:Hv.
      - destruct v as [| | |name| |]; try discriminate.
        cbn [truthy] in Hv. apply nonempty_true in Hv.
        destruct (endswith name domain) eqn:He; injection Hadd as <-.
        + rewrite elem_of_union, elem_of_singleton. split.
          * intros [->|?]; auto.
          * intros [?|([= ->] & _)]; auto.
        + split; [auto|]. intros [?|([= ->] & _ & He')]; [done | congruence].
      - injection Hadd as <-. split; [auto|]. intros [?|(-> & Hne & _)]; [done|].
        cbn [truthy] in Hv. apply nonempty_true in Hne. congruence. }
    rewrite Hstep. split.
    + intros [[?|(-> & Hne & He)]|(r' & Hin & Hr')]; [auto| |].
      * right. exists r. split; [by left | done].
      * right. exists r'. split; [by right | done].
    + intros [?|(r' & Hin & Hc' & Hne & He)]; [auto|].
      apply elem_of_cons in Hin as [->|Hin].
      * left. right. rewrite Hc in Hc'. by injection Hc' as ->.
      * right. exists r'. split; [done|]. by split.
Qed.

(** The loop over the pages, when it does not raise: the pages it adds to the
    raw pages are the ones whose records it went through. *)
Lemma search_pages_hosts self domain page_size todo all_subdomains raw_pages w
    all_subdomains' raw_pages' :
  fst (search_pages self domain page_size todo all_subdomains raw_pages w)
  = inr (all_subdomains', raw_pages') ->
  exists pages,
    raw_pages' = raw_pages ++ pages
    /\ forall h, h ∈ all_subdomains' <->
         h ∈ all_subdomains
         \/ exists resp r, resp ∈ pages /\ r ∈ fetched_records resp
                           /\ candidate r = inr (JStr h)
                           /\ h <> "" /\ endswith h domain = true.
Proof.
  revert all_subdomains raw_pages w.
  induction todo as [|page todo IH]; intros acc raw w.
  - cbn. intros [= <- <-]. exists []. rewrite app_nil_r. split; [done|].
    intros h. split; [auto|]. intros [?|(resp & r & Hresp & _)]; [done | inversion Hresp].
  - cbn [search_pages]. unfold bind at 1. cbn [log]. unfold bind at 1.
    destruct (_post _ _ _ _ _ _) as [[e|resp] w2]; [discriminate|].
    unfold bind, lift, raise, ret, log, sleep.
    destruct (py_get resp "records" (JArr [])) as [e|records] eqn:Hget; [discriminate|].
    destruct (py_iter records) as [e|items] eqn:Hiter; [discriminate|].
    destruct (collect_records domain items acc) as [e|acc1] eqn:Hacc; [discriminate|].
    assert (Hitems : fetched_records resp = items).
    { unfold fetched_records. by rewrite Hget, Hiter. }
    pose proof (collect_records_hosts _ _ _ _ Hacc) as Hacc1.
    destruct (negb (truthy records)).
    + cbn. intros [= <- <-]. exists [resp]. split; [done|].
      intros h. rewrite Hacc1. split.
      * intros [?|(r & Hr & ?)]; [auto|]. right. exists resp, r.
        split; [by left|]. split; [by rewrite Hitems | done].
      * intros [?|(resp' & r & Hresp & Hr & ?)]; [auto|].
        apply list_elem_of_singleton in Hresp as ->. right. exists r.
        split; [by rewrite <- Hitems | done].
    + change (Qle_bool 0 (3 # 10)) with true. cbv iota. intros H.
      destruct (IH _ _ _ H) as (pages & -> & Hin).
      exists (resp :: pages). split; [by rewrite <- app_assoc|].
      intros h. rewrite Hin, Hacc1. split.
      * intros [[?|(r & Hr & ?)]|(resp' & r & Hresp & ?)]; [auto| |].
        -- right. exists resp, r. split; [by left|]. split; [by rewrite Hitems | done].
        -- right. exists resp', r. split; [by right | done].
      * intros [?|(resp' & r & Hresp & Hr & ?)]; [auto|].
        apply elem_of_cons in Hresp as [->|Hresp].
        -- left. right. exists r. split; [by rewrite <- Hitems | done].
        -- right. exists resp', r. split; [done|]. by split.
Qed.

(** The hostnames of a run of [search_subdomains] that returns. *)
Lemma search_subdomains_hosts self domain page_size max_pages w hosts raw :
  fst (search_subdomains self domain page_size max_pages w) = inr (hosts, raw) ->
  exists pages,
    raw = JObj [("pages", JArr pages)]
    /\ forall h, h ∈ hosts <->
         exists resp r, resp ∈ pages /\ r ∈ fetched_records resp
                        /\ candidate r = inr (JStr h)
                        /\ h <> "" /\ exists prefix, h = prefix +:+ domain.
Proof.
  unfold search_subdomains, bind.
  destruct (search_pages self domain page_size (range 1 (max_pages + 1)) ∅ [] w)
    as [[e|[found pages]] w1] eqn:E; [discriminate|].
  cbn. intros [= <- <-].
  destruct (search_pages_hosts self domain page_size (range 1 (max_pages + 1)) ∅ [] w
              found pages) as (pages' & Hpages & Hin); [by rewrite E|].
  cbn [app] in Hpages. subst pages'. exists pages. split; [done|].
  intros h. rewrite elem_of_sorted, Hin. split.
  - intros [Hh|(resp & r & Hresp & Hr & Hc & Hne & He)];
      [by apply not_elem_of_empty in Hh|].
    exists resp, r. repeat split; try done. by apply endswith_spec.
  - intros (resp & r & Hresp & Hr & Hc & Hne & He). right.
    exists resp, r. repeat split; try done. by apply endswith_spec.
Qed.

(** The run of [search_subdomains] when every page up to [max_pages] has
    records, with its hostnames. *)
Lemma search_subdomains_all_full_hosts self domain page_size max_pages front w :
  Z.of_nat (length front) = max_pages ->
  Forall is_full_page front ->
  (forall i resp, front !! i = Some resp ->
     forall req, remote (session self) (length (sent w) + i)%nat req = Response 200 (inr resp)) ->
  exists found w',
    search_subdomains self domain page_size max_pages w
    = (inr (sorted found, JObj [("pages", JArr front)]), w')
    /\ forall h, h ∈ found <->
         exists r, r ∈ all_records front /\ candidate r = inr (JStr h)
                   /\ h <> "" /\ endswith h domain = true.
Proof.
  intros Hk Hfull H. unfold search_subdomains, range.
  replace (max_pages + 1 - 1) with max_pages by lia.
  destruct (search_pages_full_pages self domain page_size front (seqZ 1 max_pages) [] ∅ [] w)
    as (found & w1 & E & _ & _ & Hin); [| exact Hfull | exact H |].
  { rewrite length_seqZ. lia. }
  rewrite app_nil_r in E. unfold bind at 1. rewrite E. cbn [search_pages ret app].
  exists found. eexists. split; [reflexivity|].
  intros h. rewrite Hin. split; [intros [Hh|?]; [by apply not_elem_of_empty in Hh | done] | auto].
Qed.

(** C1, as the code has it: the hostnames [search_subdomains] returns are the
    candidates of the records of the fetched pages that are non-empty strings
    and end with the target domain, a plain test on the suffix.  This holds
    for every run that returns; the runs over documented pages, those that end
    on a page without records and those that go through [max_pages] pages with
    records, do return.  ["evil-example.com"] does end with ["example.com"],
    so for example.com it is returned, and so is ["api.example.com"]. *)
Theorem apex_filter_is_suffix_match self page_size max_pages w :
  (forall domain hosts raw,
     fst (search_subdomains self domain page_size max_pages w) = inr (hosts, raw) ->
     exists pages,
       raw = JObj [("pages", JArr pages)]
       /\ forall h, h ∈ hosts <->
            exists resp r, resp ∈ pages /\ r ∈ fetched_records resp
                           /\ candidate r = inr (JStr h)
                           /\ h <> "" /\ exists prefix, h = prefix +:+ domain)
  /\
  (forall domain front last,
     Z.of_nat (length front) < max_pages ->
     Forall is_full_page front -> page_records last = Some [] ->
     (forall i resp, (front ++ [last]) !! i = Some resp ->
        forall req, remote (session self) (length (sent w) + i)%nat req
                    = Response 200 (inr resp)) ->
     exists hosts w',
       search_subdomains self domain page_size max_pages w
       = (inr (hosts, JObj [("pages", JArr (front ++ [last]))]), w')
       /\ forall h, h ∈ hosts <->
            exists r, r ∈ all_records front /\ candidate r = inr (JStr h)
                      /\ h <> "" /\ exists prefix, h = prefix +:+ domain)
  /\
  (forall domain front,
     Z.of_nat (length front) = max_pages ->
     Forall is_full_page front ->
     (forall i resp, front !! i = Some resp ->
        forall req, remote (session self) (length (sent w) + i)%nat req
                    = Response 200 (inr resp)) ->
     exists hosts w',
       search_subdomains self domain page_size max_pages w
       = (inr (hosts, JObj [("pages", JArr front)]), w')
       /\ forall h, h ∈ hosts <->
            exists r, r ∈ all_records front /\ candidate r = inr (JStr h)
                      /\ h <> "" /\ exists prefix, h = prefix +:+ domain)
  /\
  (forall hosts pages,
     fst (search_subdomains self "example.com" page_size max_pages w)
     = inr (hosts, JObj [("pages", JArr pages)]) ->
     ((exists resp r, resp ∈ pages /\ r ∈ fetched_records resp
                      /\ candidate r = inr (JStr "evil-example.com"))
      -> "evil-example.com" ∈ hosts)
     /\ ((exists resp r, resp ∈ pages /\ r ∈ fetched_records resp
                         /\ candidate r = inr (JStr "api.example.com"))
         -> "api.example.com" ∈ hosts)).
Proof.
  split; [|split; [|split]].
  - intros domain hosts raw H.
    exact (search_subdomains_hosts self domain page_size max_pages w hosts raw H).
  - intros domain front last Hk Hfull Hlast H.
    destruct (search_subdomains_until_empty self domain page_size max_pages front last w)
      as (found & w' & E & _ & _ & Hin); [done..|].
    exists (sorted found), w'. split; [exact E|].
    intros h. rewrite elem_of_sorted, Hin.
    split; intros (r & Hr & Hc & Hne & He); exists r; repeat split; try done;
      by apply endswith_spec.
  - intros domain front Hk Hfull H.
    destruct (search_subdomains_all_full_hosts self domain page_size max_pages front w)
      as (found & w' & E & Hin); [done..|].
    exists (sorted found), w'. split; [exact E|].
    intros h. rewrite elem_of_sorted, Hin.
    split; intros (r & Hr & Hc & Hne & He); exists r; repeat split; try done;
      by apply endswith_spec.
  - intros hosts pages H.
    destruct (search_subdomains_hosts _ _ _ _ _ _ _ H) as (pages' & [= <-] & Hin).
    split.
    + intros (resp & r & Hresp & Hr & Hc). apply Hin. exists resp, r.
      repeat split; [done..|]. by exists "evil-".
    + intros (resp & r & Hresp & Hr & Hc). apply Hin. exists resp, r.
      repeat split; [done..|]. by exists "api.".
Qed.

Lemma apex_filter_is_suffix_match_witness :
  (exists hosts w',
     search_subdomains (client_of (scripted [Response 200 (inr page_evil);
                                             Response 200 (inr page_end)] (Fault "down")))
       "example.com" 100 10 fresh
     = (inr (hosts, JObj [("pages", JArr [page_evil; page_end])]), w')
     /\ "evil-example.com" ∈ hosts /\ "api.example.com" ∈ hosts)
  /\
  (exists hosts w',
     search_subdomains (client_of (scripted [] (Response 200 (inr page_evil))))
       "example.com" 100 2 fresh
     = (inr (hosts, JObj [("pages", JArr [page_evil; page_evil])]), w')
     /\ "evil-example.com" ∈ hosts /\ "api.example.com" ∈ hosts).
Proof.
  split.
  - destruct (apex_filter_is_suffix_match
                (client_of (scripted [Response 200 (inr page_evil);
                                      Response 200 (inr page_end)] (Fault "down")))
                100 10 fresh) as (_ & Hrun & _ & _).
    destruct (Hrun "example.com" [page_evil] page_end) as (hosts & w' & E & Hin).
    + cbn. lia.
    + repeat constructor. eexists. split; [reflexivity | done].
    + reflexivity.
    + intros [|[|i]] resp [= <-] req; reflexivity.
    + exists hosts, w'. split; [exact E|]. split.
      * apply Hin. exists (JObj [("hostname", JStr "evil-example.com")]).
        split; [cbn; left|]. split; [reflexivity|]. split; [done | by exists "evil-"].
      * apply Hin. exists (JObj [("hostname", JStr "api.example.com")]).
        split; [cbn; right; left|]. split; [reflexivity|]. split; [done | by exists "api."].
  - destruct (apex_filter_is_suffix_match
                (client_of (scripted [] (Response 200 (inr page_evil))))
                100 2 fresh) as (_ & _ & Hrun & _).
    destruct (Hrun "example.com" [page_evil; page_evil]) as (hosts & w' & E & Hin).
    + reflexivity.
    + repeat constructor; eexists; (split; [reflexivity | done]).
    + intros [|[|i]] resp [= <-] req; reflexivity.
    + exists hosts, w'. split; [exact E|]. split.
      * apply Hin. exists (JObj [("hostname", JStr "evil-example.com")]).
        split; [cbn; left|]. split; [reflexivity|]. split; [done | by exists "evil-"].
      * apply Hin. exists (JObj [("hostname", JStr "api.example.com")]).
        split; [cbn; right; left|]. split; [reflexivity|]. split; [done | by exists "api."].
Defined.

(** C1 as it is written fails: a record whose hostname is
    ["evil-example.com"] is in the result of a search for example.com. *)
Lemma evil_example_com_is_included :
  endswith "evil-example.com" "example.com" = true
  /\ fst (search_subdomains
            (client_of (scripted [Response 200 (inr page_evil);
                                  Response 200 (inr page_end)] (Fault "down")))
            "example.com" 100 10 fresh)
     = inr (["api.example.com"; "evil-example.com"],
            JObj [("pages", JArr [page_evil; page_end])]).
Proof. split; vm_compute; reflexivity. Qed.

(** C9, as the code has it: the candidate of a record is its [hostname] when
    that is a non-empty string, whatever its [domain]; when [hostname] is
    absent, null or the empty string, the candidate is its [domain]. *)
Theorem candidate_is_hostname_or_domain domain rest all_subdomains :
  (forall fields h,
     lookup_field "hostname" fields = Some (JStr h) -> h <> "" ->
     candidate (JObj fields) = inr (JStr h)
     /\ collect_records domain (JObj fields :: rest) all_subdomains
        = collect_records domain rest
            (if endswith h domain then {[h]} ∪ all_subdomains else all_subdomains))
  /\
  (forall fields fields' h,
     lookup_field "hostname" fields = Some (JStr h) ->
     lookup_field "hostname" fields' = Some (JStr h) -> h <> "" ->
     collect_records domain (JObj fields :: rest) all_subdomains
     = collect_records domain (JObj fields' :: rest) all_subdomains)
  /\
  (forall fields,
     lookup_field "hostname" fields = None
     \/ lookup_field "hostname" fields = Some JNull
     \/ lookup_field "hostname" fields = Some (JStr "") ->
     candidate (JObj fields) = inr (dict_get "domain" fields JNull))
  /\
  (forall fields g,
     lookup_field "hostname" fields = None
     \/ lookup_field "hostname" fields = Some JNull
     \/ lookup_field "hostname" fields = Some (JStr "") ->
     lookup_field "domain" fields = Some (JStr g) -> g <> "" ->
     collect_records domain (JObj fields :: rest) all_subdomains
     = collect_records domain rest
         (if endswith g domain then {[g]} ∪ all_subdomains else all_subdomains)).
Proof.
  split; [|split; [|split]].
  - intros fields h Hh Hne. split; [|by apply collect_records_hostname].
    cbn [candidate py_get]. unfold dict_get. rewrite Hh. cbn [truthy].
    apply nonempty_true in Hne. by rewrite Hne.
  - intros fields fields' h Hh Hh' Hne.
    by rewrite (collect_records_hostname _ fields h), (collect_records_hostname _ fields' h).
  - intros fields Hh. cbn [candidate py_get]. unfold dict_get at 1.
    by destruct Hh as [-> | [-> | ->]].
  - intros fields g Hh Hg Hne. rewrite collect_records_domain by done.
    unfold dict_get. rewrite Hg, add_candidate_string.
    apply nonempty_true in Hne. by rewrite Hne.
Qed.

Lemma candidate_is_hostname_or_domain_witness :
  collect_records "example.com"
    [JObj [("hostname", JStr "api.example.com"); ("domain", JStr "example.com")]] ∅
  = collect_records "example.com" [] ({["api.example.com"]} ∪ ∅)
  /\
  collect_records "example.com" [JObj [("hostname", JNull); ("domain", JStr "example.com")]] ∅
  = collect_records "example.com" [] ({["example.com"]} ∪ ∅).
Proof.
  destruct (candidate_is_hostname_or_domain "example.com" [] ∅) as (H1 & _ & _ & H4).
  split.
  - apply (H1 [("hostname", JStr "api.example.com"); ("domain", JStr "example.com")]
              "api.example.com"); done.
  - apply (H4 [("hostname", JNull); ("domain", JStr "example.com")] "example.com");
      [right; left; reflexivity | reflexivity | done].
Defined.

(** C9 as it is written fails: a record with a [hostname] key whose value is
    the empty string gets its [domain] as the candidate, and the result holds
    that [domain]. *)
Lemma empty_hostname_falls_back_to_domain :
  has_key "hostname" [("hostname", JStr ""); ("domain", JStr "api.example.com")] = true
  /\ candidate (JObj [("hostname", JStr ""); ("domain", JStr "api.example.com")])
     = inr (JStr "api.example.com")
  /\ fst (search_subdomains
            (client_of (scripted [Response 200 (inr page_empty_hostname);
                                  Response 200 (inr page_end)] (Fault "down")))
            "example.com" 100 10 fresh)
     = inr (["api.example.com"],
            JObj [("pages", JArr [page_empty_hostname; page_end])]).
Proof. repeat split; vm_compute; reflexivity. Qed.

(** * Further properties *)

(** ** The request layer, whatever the remote side does *)

Section request_layer_any.

Context (self : SecurityTrailsClient) (req : request) (retries : Z) (backoff : Q).

(** Every attempt sends the request once. *)
Lemma attempt_once_sent attempt w :
  sent (snd (attempt_once self req retries backoff attempt w)) = sent w ++ [req].
Proof.
  unfold attempt_once, try_except, bind, send, log, sleep, raise_for_status, lift, raise, ret.
  destruct_innermost; reflexivity.
Qed.

Lemma attempts_sent todo w :
  exists n, (n <= length todo)%nat
            /\ sent (snd (attempts self req retries backoff todo w)) = sent w ++ replicate n req.
Proof.
  revert w. induction todo as [|attempt todo IH]; intros w.
  - exists 0%nat. split; [done|]. cbn. by rewrite app_nil_r.
  - cbn [attempts length]. unfold bind.
    pose proof (attempt_once_sent attempt w) as H1.
    destruct (attempt_once self req retries backoff attempt w) as [[e|[data|]] w1];
      cbn [snd ret] in *.
    + exists 1%nat. split; [lia | done].
    + exists 1%nat. split; [lia | done].
    + destruct (IH w1) as (n & Hn & Hs). exists (S n). split; [lia|].
      rewrite Hs, H1, <- app_assoc. done.
Qed.

(** An attempt whose answer backs off sleeps [backoff * attempt]; one whose
    answer passes over does not sleep. *)
Lemma attempt_once_backs_off attempt w :
  (0 <= backoff * inject_Z attempt)%Q ->
  backs_off (remote (session self) (length (sent w)) req) = true ->
  exists w', attempt_once self req retries backoff attempt w = (inr None, w')
             /\ sent w' = sent w ++ [req]
             /\ slept w' = slept w ++ [(backoff * inject_Z attempt)%Q].
Proof.
  intros Hw H. apply Qle_bool_iff in Hw.
  unfold attempt_once, try_except, bind, send, log, sleep, raise_for_status, lift, raise, ret.
  destruct (remote (session self) (length (sent w)) req) as [detail|st body]; cbn in *.
  - rewrite Hw. eauto.
  - destruct (st =? 200).
    + destruct body as [e|data]; [|done]. cbn. rewrite H, Hw. eauto.
    + destruct (st =? 429); cbn in *.
      * rewrite Hw. cbn. eauto.
      * rewrite H. cbn. rewrite Hw. eauto.
Qed.

Lemma attempt_once_passes_over attempt w :
  passes_over (remote (session self) (length (sent w)) req) = true ->
  attempt_once self req retries backoff attempt w =
    (inr None, {| sent := sent w ++ [req]; slept := slept w; logged := logged w |}).
Proof.
  intros H.
  unfold attempt_once, try_except, bind, send, log, sleep, raise_for_status, lift, raise, ret.
  destruct (remote (session self) (length (sent w)) req) as [detail|st body]; [done|].
  cbn in *. destruct (st =? 200); [done|]. destruct (st =? 429); [done|].
  cbn in *. by destruct ((400 <=? st) && (st <? 600)).
Qed.

(** An attempt whose answer backs off under a negative wait ends the call
    with the [ValueError] of [time.sleep]. *)
Lemma attempt_once_negative_wait attempt w :
  (backoff * inject_Z attempt < 0)%Q ->
  backs_off (remote (session self) (length (sent w)) req) = true ->
  exists w', attempt_once self req retries backoff attempt w
             = (inl (ValueError "sleep length must be non-negative"), w')
             /\ sent w' = sent w ++ [req] /\ slept w' = slept w.
Proof.
  intros Hw H.
  assert (Qle_bool 0 (backoff * inject_Z attempt) = false) as Hneg.
  { destruct (Qle_bool 0 (backoff * inject_Z attempt)) eqn:E; [|done].
    apply Qle_bool_iff in E. exfalso. by apply (Qlt_not_le _ _ Hw). }
  unfold attempt_once, try_except, bind, send, log, sleep, raise_for_status, lift, raise, ret.
  destruct (remote (session self) (length (sent w)) req) as [detail|st body]; cbn in *.
  - rewrite Hneg. eauto.
  - destruct (st =? 200).
    + destruct body as [e|data]; [|done]. cbn. rewrite H, Hneg. eauto.
    + destruct (st =? 429); cbn in *.
      * rewrite Hneg. cbn. eauto.
      * rewrite H. cbn. rewrite Hneg. eauto.
Qed.

(** A 200 whose body [r.json()] rejects with another exception than a
    [RequestException] ends the call with that exception. *)
Lemma attempt_once_undecodable attempt e w :
  is_RequestException e = false ->
  remote (session self) (length (sent w)) req = Response 200 (inl e) ->
  attempt_once self req retries backoff attempt w =
    (inl e, {| sent := sent w ++ [req]; slept := slept w; logged := logged w |}).
Proof.
  intros He H. unfold attempt_once, try_except, bind, send. rewrite H. cbn. by rewrite He.
Qed.

(** The runs of attempts that all back off, and that all pass over. *)
Lemma attempts_all_back_off todo w :
  (0 <= backoff)%Q ->
  Forall (fun attempt => 0 <= attempt) todo ->
  (forall i, (i < length todo)%nat ->
     backs_off (remote (session self) (length (sent w) + i)%nat req) = true) ->
  exists w',
    attempts self req retries backoff todo w =
      (inl (RuntimeError (verb_name (req_verb req) +:+ " request to " +:+ req_url req
                          +:+ " failed after " +:+ show retries +:+ " attempts")), w')
    /\ sent w' = sent w ++ replicate (length todo) req
    /\ slept w' = slept w ++ map (fun attempt => (backoff * inject_Z attempt)%Q) todo.
Proof.
  intros Hb Htodo. revert w.
  induction Htodo as [|attempt todo Ha _ IH]; intros w H; cbn [attempts length map replicate].
  - exists w. by rewrite !app_nil_r.
  - destruct (attempt_once_backs_off attempt w) as (w1 & E1 & S1 & Z1).
    { by apply wait_nonneg. }
    { specialize (H 0%nat). rewrite Nat.add_0_r in H. apply H. cbn. lia. }
    destruct (IH w1) as (w2 & E2 & S2 & Z2).
    { intros i Hi. rewrite S1, length_app. cbn [length].
      replace (length (sent w) + 1 + i)%nat with (length (sent w) + S i)%nat by lia.
      apply H. cbn. lia. }
    exists w2. split; [|split].
    + unfold bind at 1. by rewrite E1.
    + rewrite S2, S1, <- app_assoc. done.
    + rewrite Z2, Z1, <- app_assoc. done.
Qed.

Lemma attempts_all_pass_over todo w :
  (forall i, (i < length todo)%nat ->
     passes_over (remote (session self) (length (sent w) + i)%nat req) = true) ->
  attempts self req retries backoff todo w =
    (inl (RuntimeError (verb_name (req_verb req) +:+ " request to " +:+ req_url req
                        +:+ " failed after " +:+ show retries +:+ " attempts")),
     {| sent := sent w ++ replicate (length todo) req; slept := slept w; logged := logged w |}).
Proof.
  revert w. induction todo as [|attempt todo IH]; intros w H; cbn [attempts length replicate].
  - rewrite app_nil_r. by destruct w.
  - unfold bind at 1. rewrite attempt_once_passes_over.
    2:{ specialize (H 0%nat). rewrite Nat.add_0_r in H. apply H. cbn. lia. }
    rewrite IH.
    2:{ intros i Hi. cbn [sent]. rewrite length_app. cbn [length].
        replace (length (sent w) + 1 + i)%nat with (length (sent w) + S i)%nat by lia.
        apply H. cbn. lia. }
    cbn [sent slept logged]. by rewrite <- app_assoc.
Qed.

(** Failed attempts, then a 200: the call returns its body. *)
Lemma attempts_failures_then_200 failed attempt rest data w :
  (0 <= backoff)%Q ->
  Forall (fun a => 0 <= a) failed ->
  (forall i, (i < length failed)%nat ->
     status_of (remote (session self) (length (sent w) + i)%nat req) <> Some 200) ->
  remote (session self) (length (sent w) + length failed)%nat req = Response 200 (inr data) ->
  exists w',
    attempts self req retries backoff (failed ++ attempt :: rest) w = (inr data, w')
    /\ sent w' = sent w ++ replicate (S (length failed)) req.
Proof.
  intros Hb Hfailed. revert w.
  induction Hfailed as [|a failed Ha _ IH]; intros w H H200; cbn [app attempts length].
  - rewrite Nat.add_0_r in H200. unfold bind at 1.
    rewrite (attempt_once_200 _ _ _ _ _ data) by done. cbn [ret]. eauto.
  - destruct (attempt_once_not_200 self req retries backoff Hb a w Ha) as (w1 & E1 & S1).
    { specialize (H 0%nat). rewrite Nat.add_0_r in H. apply H. cbn. lia. }
    destruct (IH w1) as (w2 & E2 & S2).
    { intros i Hi. rewrite S1, length_app. cbn [length].
      replace (length (sent w) + 1 + i)%nat with (length (sent w) + S i)%nat by lia.
      apply H. cbn. lia. }
    { rewrite S1, length_app. cbn [length].
      replace (length (sent w) + 1 + length failed)%nat
        with (length (sent w) + S (length failed))%nat by lia. exact H200. }
    exists w2. split.
    + unfold bind at 1. by rewrite E1.
    + rewrite S2, S1, <- app_assoc. done.
Qed.

End request_layer_any.

(** X1: whatever the remote side answers and whatever [retries] and [backoff]
    are, [_get] calls [session.get] and [_post] calls [session.post] at most
    [retries] times, every time with the same URL, headers, parameters or
    body, and timeout, and they make no other call of the session.  This
    counts the calls, one entry of [sent] each, not what [requests] sends
    inside one call when it follows a redirect. *)
Theorem request_layer_sends_at_most_retries self path params json_body retries backoff w :
  (exists n, (n <= Z.to_nat retries)%nat
     /\ sent (snd (_get self path params retries backoff w))
        = sent w ++ replicate n (get_request self path params))
  /\
  (exists n, (n <= Z.to_nat retries)%nat
     /\ sent (snd (_post self path json_body retries backoff w))
        = sent w ++ replicate n (post_request self path json_body)).
Proof.
  assert (Hlen : length (range 1 (retries + 1)) = Z.to_nat retries).
  { unfold range. rewrite length_seqZ. lia. }
  split.
  - destruct (attempts_sent self (get_request self path params) retries backoff
                (range 1 (retries + 1)) w) as (n & Hn & Hs).
    exists n. split; [lia | exact Hs].
  - destruct (attempts_sent self (post_request self path json_body) retries backoff
                (range 1 (retries + 1)) w) as (n & Hn & Hs).
    exists n. split; [lia | exact Hs].
Qed.

Lemma range_split (retries : Z) (k : nat) :
  Z.of_nat k < retries ->
  range 1 (retries + 1)
  = seqZ 1 (Z.of_nat k) ++ (1 + Z.of_nat k) :: seqZ (Z.succ (1 + Z.of_nat k))
                                                  (Z.pred (retries - Z.of_nat k)).
Proof.
  intros Hk. unfold range.
  replace (retries + 1 - 1) with (Z.of_nat k + (retries - Z.of_nat k)) by lia.
  rewrite seqZ_app by lia. by rewrite (seqZ_cons (1 + Z.of_nat k)) by lia.
Qed.

(** X2: when the first [k] attempts are not answered with 200 and the next
    one, still within [retries], is, [_get] and [_post] return the body of
    that answer after [k + 1] requests. *)
Theorem request_layer_returns_first_200 self path params json_body retries backoff
    (k : nat) data w :
  (0 <= backoff)%Q -> Z.of_nat k < retries ->
  (forall i req, (i < k)%nat ->
     status_of (remote (session self) (length (sent w) + i)%nat req) <> Some 200) ->
  (forall req, remote (session self) (length (sent w) + k)%nat req = Response 200 (inr data)) ->
  (exists w',
     _get self path params retries backoff w = (inr data, w')
     /\ sent w' = sent w ++ replicate (S k) (get_request self path params))
  /\
  (exists w',
     _post self path json_body retries backoff w = (inr data, w')
     /\ sent w' = sent w ++ replicate (S k) (post_request self path json_body)).
Proof.
  intros Hb Hk Hfail H200.
  assert (Hall : Forall (fun a => 0 <= a) (seqZ 1 (Z.of_nat k))).
  { apply Forall_forall. intros a Ha. apply elem_of_seqZ in Ha. lia. }
  assert (Hlen : length (seqZ 1 (Z.of_nat k)) = k).
  { rewrite length_seqZ. lia. }
  unfold _get, _post. rewrite (range_split retries k Hk). split.
  - destruct (attempts_failures_then_200 self (get_request self path params) retries backoff
                (seqZ 1 (Z.of_nat k)) (1 + Z.of_nat k)
                (seqZ (Z.succ (1 + Z.of_nat k)) (Z.pred (retries - Z.of_nat k))) data w
                Hb Hall) as (w' & E & S).
    { rewrite Hlen. intros i Hi. by apply Hfail. }
    { rewrite Hlen. apply H200. }
    exists w'. rewrite Hlen in S. by split.
  - destruct (attempts_failures_then_200 self (post_request self path json_body) retries backoff
                (seqZ 1 (Z.of_nat k)) (1 + Z.of_nat k)
                (seqZ (Z.succ (1 + Z.of_nat k)) (Z.pred (retries - Z.of_nat k))) data w
                Hb Hall) as (w' & E & S).
    { rewrite Hlen. intros i Hi. by apply Hfail. }
    { rewrite Hlen. apply H200. }
    exists w'. rewrite Hlen in S. by split.
Qed.

Lemma request_layer_returns_first_200_witness :
  exists w',
    _get (client_of (scripted [Response 503 (inr JNull); Response 200 (inr (JStr "ok"))]
                       (Fault "down")))
      "/ping" None 3 1 fresh = (inr (JStr "ok"), w')
    /\ length (sent w') = 2%nat.
Proof.
  destruct (request_layer_returns_first_200
              (client_of (scripted [Response 503 (inr JNull); Response 200 (inr (JStr "ok"))]
                            (Fault "down")))
              "/ping" None JNull 3 1 1 (JStr "ok") fresh) as [(w' & E & S) _].
  - done.
  - lia.
  - intros [|i] req Hi; [done | lia].
  - intros req. reflexivity.
  - exists w'. split; [exact E | by rewrite S].
Defined.

(** X3: when every attempt backs off (transport fault, 429, 4xx or 5xx),
    [_get] and [_post] sleep [backoff * 1], [backoff * 2], ...,
    [backoff * retries], the last of these after the last attempt, and then
    raise the exhaustion error. *)
Theorem request_layer_linear_backoff self path params json_body retries backoff w :
  (0 <= backoff)%Q ->
  (forall i req, (i < Z.to_nat retries)%nat ->
     backs_off (remote (session self) (length (sent w) + i)%nat req) = true) ->
  (exists w',
     _get self path params retries backoff w =
       (inl (RuntimeError ("GET request to " +:+ (base self +:+ path) +:+ " failed after "
                           +:+ show retries +:+ " attempts")), w')
     /\ slept w' = slept w ++ map (fun attempt => (backoff * inject_Z attempt)%Q)
                                (seqZ 1 retries))
  /\
  (exists w',
     _post self path json_body retries backoff w =
       (inl (RuntimeError ("POST request to " +:+ (base self +:+ path) +:+ " failed after "
                           +:+ show retries +:+ " attempts")), w')
     /\ slept w' = slept w ++ map (fun attempt => (backoff * inject_Z attempt)%Q)
                                (seqZ 1 retries)).
Proof.
  intros Hb H.
  assert (Hrange : range 1 (retries + 1) = seqZ 1 retries).
  { unfold range. f_equal. lia. }
  assert (Hall : Forall (fun a => 0 <= a) (seqZ 1 retries)).
  { apply Forall_forall. intros a Ha. apply elem_of_seqZ in Ha. lia. }
  unfold _get, _post. rewrite Hrange. split.
  - destruct (attempts_all_back_off self (get_request self path params) retries backoff
                (seqZ 1 retries) w Hb Hall) as (w' & E & _ & Z).
    { rewrite length_seqZ. intros i Hi. by apply H. }
    exists w'. split; [exact E | exact Z].
  - destruct (attempts_all_back_off self (post_request self path json_body) retries backoff
                (seqZ 1 retries) w Hb Hall) as (w' & E & _ & Z).
    { rewrite length_seqZ. intros i Hi. by apply H. }
    exists w'. split; [exact E | exact Z].
Qed.

Lemma request_layer_linear_backoff_witness :
  exists w',
    _get (client_of (scripted [Response 429 (inr JNull); Fault "reset"]
                       (Response 500 (inr JNull))))
      "/ping" None 3 (1 # 2) fresh
    = (inl (RuntimeError "GET request to https://api.securitytrails.com/v1/ping failed after 3 attempts"),
       w')
    /\ slept w' = [((1 # 2) * inject_Z 1)%Q; ((1 # 2) * inject_Z 2)%Q; ((1 # 2) * inject_Z 3)%Q].
Proof.
  destruct (request_layer_linear_backoff
              (client_of (scripted [Response 429 (inr JNull); Fault "reset"]
                            (Response 500 (inr JNull))))
              "/ping" None JNull 3 (1 # 2) fresh) as [(w' & E & Z) _].
  - done.
  - intros [|[|[|i]]] req Hi; reflexivity.
  - exists w'. split; [exact E | exact Z].
Defined.

(** X4: when every answer has a status that is neither 200, nor 429, nor 4xx
    or 5xx (a 204 or a 302, say), [_get] and [_post] send their [retries]
    requests one after the other, without a sleep or a log line, and raise the
    exhaustion error. *)
Theorem request_layer_no_pause self path params json_body retries backoff w :
  (forall i req, (i < Z.to_nat retries)%nat ->
     passes_over (remote (session self) (length (sent w) + i)%nat req) = true) ->
  _get self path params retries backoff w =
    (inl (RuntimeError ("GET request to " +:+ (base self +:+ path) +:+ " failed after "
                        +:+ show retries +:+ " attempts")),
     {| sent := sent w ++ replicate (Z.to_nat retries) (get_request self path params);
        slept := slept w; logged := logged w |})
  /\
  _post self path json_body retries backoff w =
    (inl (RuntimeError ("POST request to " +:+ (base self +:+ path) +:+ " failed after "
                        +:+ show retries +:+ " attempts")),
     {| sent := sent w ++ replicate (Z.to_nat retries) (post_request self path json_body);
        slept := slept w; logged := logged w |}).
Proof.
  intros H.
  assert (Hlen : length (range 1 (retries + 1)) = Z.to_nat retries).
  { unfold range. rewrite length_seqZ. lia. }
  unfold _get, _post. split.
  - rewrite attempts_all_pass_over; [by rewrite Hlen|].
    rewrite Hlen. intros i Hi. by apply H.
  - rewrite attempts_all_pass_over; [by rewrite Hlen|].
    rewrite Hlen. intros i Hi. by apply H.
Qed.

Lemma request_layer_no_pause_witness :
  slept (snd (_get (client_of (scripted [] (Response 204 (inr JNull))))
                "/ping" None 3 1 fresh)) = []
  /\ length (sent (snd (_get (client_of (scripted [] (Response 204 (inr JNull))))
                          "/ping" None 3 1 fresh))) = 3%nat.
Proof.
  destruct (request_layer_no_pause (client_of (scripted [] (Response 204 (inr JNull))))
              "/ping" None JNull 3 1 fresh) as [E _].
  - intros [|[|[|i]]] req Hi; reflexivity.
  - rewrite E. split; reflexivity.
Defined.

(** X5: with a negative [backoff], the first attempt that backs off ends
    [_get] and [_post] with the [ValueError] of [time.sleep], after one
    request and without a sleep. *)
Theorem request_layer_negative_backoff self path params json_body retries backoff w :
  1 <= retries -> (backoff < 0)%Q ->
  (forall req, backs_off (remote (session self) (length (sent w)) req) = true) ->
  (exists w',
     _get self path params retries backoff w
     = (inl (ValueError "sleep length must be non-negative"), w')
     /\ sent w' = sent w ++ [get_request self path params] /\ slept w' = slept w)
  /\
  (exists w',
     _post self path json_body retries backoff w
     = (inl (ValueError "sleep length must be non-negative"), w')
     /\ sent w' = sent w ++ [post_request self path json_body] /\ slept w' = slept w).
Proof.
  intros Hr Hb H.
  assert (Hw : (backoff * inject_Z 1 < 0)%Q).
  { change (inject_Z 1) with 1%Q. by rewrite Qmult_1_r. }
  unfold _get, _post, range. rewrite seqZ_cons by lia. cbn [attempts]. unfold bind. split.
  - destruct (attempt_once_negative_wait self (get_request self path params) retries backoff
                1 w Hw (H _)) as (w' & E & S & Z).
    rewrite E. eauto.
  - destruct (attempt_once_negative_wait self (post_request self path json_body) retries backoff
                1 w Hw (H _)) as (w' & E & S & Z).
    rewrite E. eauto.
Qed.

Lemma request_layer_negative_backoff_witness :
  fst (_get (client_of (scripted [] (Response 429 (inr JNull)))) "/ping" None 3 (-1) fresh)
  = inl (ValueError "sleep length must be non-negative").
Proof.
  destruct (request_layer_negative_backoff (client_of (scripted [] (Response 429 (inr JNull))))
              "/ping" None JNull 3 (-1) fresh) as [(w' & E & _) _].
  - lia.
  - done.
  - intros req. reflexivity.
  - by rewrite E.
Defined.

(** X6: with [retries] at 0 or below, [_get] and [_post] send nothing: they
    raise the exhaustion error at once. *)
Theorem request_layer_no_attempt self path params json_body retries backoff w :
  retries <= 0 ->
  _get self path params retries backoff w =
    (inl (RuntimeError ("GET request to " +:+ (base self +:+ path) +:+ " failed after "
                        +:+ show retries +:+ " attempts")), w)
  /\
  _post self path json_body retries backoff w =
    (inl (RuntimeError ("POST request to " +:+ (base self +:+ path) +:+ " failed after "
                        +:+ show retries +:+ " attempts")), w).
Proof.
  intros Hr. unfold _get, _post, range. rewrite seqZ_nil by lia. by split.
Qed.

Lemma request_layer_no_attempt_witness :
  _get (client_of (scripted [] (Response 200 (inr JNull)))) "/ping" None 0 1 fresh
  = (inl (RuntimeError "GET request to https://api.securitytrails.com/v1/ping failed after 0 attempts"),
     fresh).
Proof.
  destruct (request_layer_no_attempt (client_of (scripted [] (Response 200 (inr JNull))))
              "/ping" None JNull 0 1 fresh) as [E _]; [lia|].
  exact E.
Defined.

(** X7: a 200 whose body [r.json()] rejects with an exception that is not a
    [RequestException] is not retried: [_get] and [_post] raise that exception
    after one request, without a sleep. *)
Theorem request_layer_undecodable_body self path params json_body retries backoff e w :
  1 <= retries -> is_RequestException e = false ->
  (forall req, remote (session self) (length (sent w)) req = Response 200 (inl e)) ->
  _get self path params retries backoff w =
    (inl e, {| sent := sent w ++ [get_request self path params];
               slept := slept w; logged := logged w |})
  /\
  _post self path json_body retries backoff w =
    (inl e, {| sent := sent w ++ [post_request self path json_body];
               slept := slept w; logged := logged w |}).
Proof.
  intros Hr He H. unfold _get, _post, range. rewrite seqZ_cons by lia. cbn [attempts].
  unfold bind. by rewrite !(attempt_once_undecodable _ _ _ _ _ e) by done.
Qed.

Lemma request_layer_undecodable_body_witness :
  fst (_get (client_of (scripted [Response 200 (inl (ValueError "Expecting value"))]
                          (Response 200 (inr JNull))))
         "/ping" None 3 1 fresh)
  = inl (ValueError "Expecting value").
Proof.
  destruct (request_layer_undecodable_body
              (client_of (scripted [Response 200 (inl (ValueError "Expecting value"))]
                            (Response 200 (inr JNull))))
              "/ping" None JNull 3 1 (ValueError "Expecting value") fresh) as [E _].
  - lia.
  - done.
  - intros req. reflexivity.
  - by rewrite E.
Defined.

(** ** Construction: the base URL *)

Lemma rstrip_spec (c : ascii) (s : string) :
  exists n, s = rstrip c s +:+ repeat_char c n.
Proof.
  induction s as [|a s [n IH]]; [by exists 0%nat|].
  cbn [rstrip]. destruct (Ascii.eqb_spec a c) as [->|Hne]; cbn [andb].
  - destruct (String.eqb_spec (rstrip c s) "") as [E|_].
    + exists (S n). rewrite E in IH. cbn in IH. by rewrite IH at 1.
    + exists n. change (String c s = String c (rstrip c s +:+ repeat_char c n)). by f_equal.
  - exists n. change (String a s = String a (rstrip c s +:+ repeat_char c n)). by f_equal.
Qed.

Lemma rstrip_no_trailing (c : ascii) (s : string) :
  forall p, rstrip c s <> p +:+ String c "".
Proof.
  induction s as [|a s IH]; intros p; cbn [rstrip].
  - by destruct p.
  - destruct (Ascii.eqb_spec a c) as [->|Hne]; cbn [andb].
    + destruct (String.eqb_spec (rstrip c s) "") as [E|Hs]; [by destruct p|].
      destruct p as [|b p]; cbn.
      * intros [= E]. done.
      * intros [= _ E]. by apply (IH p).
    + destruct p as [|b p]; cbn.
      * intros [= E _]. done.
      * intros [= _ E]. by apply (IH p).
Qed.

Lemma rstrip_fixed (c : ascii) (s : string) :
  (forall p, s <> p +:+ String c "") -> rstrip c s = s.
Proof.
  induction s as [|a s IH]; intros H; [done|]. cbn [rstrip].
  rewrite IH.
  2:{ intros p E. apply (H (String a p)). rewrite E. reflexivity. }
  destruct (Ascii.eqb_spec a c) as [->|_]; [|done].
  destruct (String.eqb_spec s "") as [->|_]; [|done].
  exfalso. by apply (H "").
Qed.

(** X8: the base of a client is its [base_url] without the slashes at its
    end: it does not end with a slash, [base_url] is the base followed by
    slashes only, and a [base_url] that does not end with a slash is kept as
    it is. *)
Theorem init_base_without_trailing_slash environ net explicit base_url timeout w self :
  fst (__init__ environ net explicit base_url timeout w) = inr self ->
  (forall p, base self <> p +:+ "/")
  /\ (exists n, base_url = base self +:+ repeat_char "/" n)
  /\ ((forall p, base_url <> p +:+ "/") -> base self = base_url).
Proof.
  intros H.
  assert (Hbase : base self = rstrip "/" base_url).
  { unfold __init__ in H. destruct (opt_or _ _) as [k|]; [|done].
    destruct (nonempty k); cbn in H; [|done]. by injection H as <-. }
  rewrite Hbase. split; [|split].
  - apply rstrip_no_trailing.
  - apply rstrip_spec.
  - apply rstrip_fixed.
Qed.

Lemma init_base_without_trailing_slash_witness :
  exists self,
    fst (__init__ ∅ (scripted [] (Fault "down")) (Some "k") "https://proxy.local/v1//" 15 fresh)
    = inr self
    /\ (forall p, base self <> p +:+ "/")
    /\ exists n, "https://proxy.local/v1//" = base self +:+ repeat_char "/" n.
Proof.
  eexists. split; [reflexivity|].
  destruct (init_base_without_trailing_slash ∅ (scripted [] (Fault "down")) (Some "k")
              "https://proxy.local/v1//" 15 fresh _ eq_refl) as (H1 & H2 & _).
  split; [exact H1 | exact H2].
Defined.

(** ** list_subdomains, whatever the remote side does *)

Lemma string_app_assoc (a b c : string) : (a +:+ b) +:+ c = a +:+ b +:+ c.
Proof.
  induction a as [|x a IH]; [done|].
  change (String x ((a +:+ b) +:+ c) = String x (a +:+ b +:+ c)). by f_equal.
Qed.

(** The names the loop over the fragments adds are not empty and end with
    the domain. *)
Lemma collect_fragments_names domain fragments subdomains names :
  collect_fragments domain fragments subdomains = inr names ->
  forall h, h ∈ names -> h ∈ subdomains \/ (h <> "" /\ exists p, h = p +:+ domain).
Proof.
  revert subdomains. induction fragments as [|s fragments IH]; intros subdomains.
  - intros [= <-] h Hh. by left.
  - destruct s as [| | |s| |]; try discriminate.
    rewrite collect_fragments_step. intros H h Hh.
    destruct (IH _ H h Hh) as [Hin|?]; [|by right].
    destruct (nonempty s) eqn:Hs; [|by left].
    apply elem_of_app in Hin as [?|Hin]; [by left|]. right.
    apply list_elem_of_singleton in Hin as ->.
    destruct (endswith s domain) eqn:He.
    + split; [by apply nonempty_true | by apply endswith_spec].
    + split; [by destruct s | exists (s +:+ "."); by rewrite string_app_assoc].
Qed.

(** The loop over the fragments can only raise [AttributeError], and does
    when a fragment is not a string. *)
Lemma collect_fragments_not_string domain fragments subdomains item :
  item ∈ fragments -> (forall s, item <> JStr s) ->
  collect_fragments domain fragments subdomains = inl AttributeError.
Proof.
  intros Hin Hitem. revert subdomains.
  induction fragments as [|s fragments IH]; intros subdomains; [by inversion Hin|].
  destruct s as [| | |s| |]; try reflexivity.
  rewrite collect_fragments_step.
  apply elem_of_cons in Hin as [->|Hin]; [by edestruct Hitem|]. by apply IH.
Qed.

(** What [list_subdomains] does after the call of [_get], by what that call
    returns or raises. *)
Lemma list_subdomains_get_raises self domain e w :
  fst (_get self ("/domain/" +:+ domain +:+ "/subdomains") None 3 1 w) = inl e ->
  fst (list_subdomains self domain w) = inl e.
Proof.
  intros H. unfold _get in H.
  rewrite (attempts_same_sent _ _ _ _ _ w
             {| sent := sent w; slept := slept w;
                logged := logged w ++ [(INFO, RequestingSubdomains domain)] |})
    in H by reflexivity.
  unfold list_subdomains, _get. unfold bind at 1. cbn [log]. unfold bind at 1.
  destruct (attempts _ _ _ _ _ _) as [r w1]. cbn [fst] in H. by subst r.
Qed.

Lemma list_subdomains_field_raises self domain fields field e w :
  fst (_get self ("/domain/" +:+ domain +:+ "/subdomains") None 3 1 w) = inr (JObj fields) ->
  lookup_field "subdomains" fields = Some field ->
  match py_iter field with
  | inl e' => inl e'
  | inr fragments => collect_fragments domain fragments []
  end = inl e ->
  fst (list_subdomains self domain w) = inl e.
Proof.
  intros H Hfield Hraise. apply list_subdomains_get in H as [w1 H].
  unfold list_subdomains. unfold bind at 1. cbn [log]. unfold bind at 1.
  rewrite H. cbn [has_subdomains py_get]. unfold has_key, dict_get. rewrite Hfield.
  unfold bind, lift, ret, raise.
  destruct (py_iter field) as [e'|fragments]; [by injection Hraise as -> |].
  by rewrite Hraise.
Qed.

Lemma list_subdomains_returned self domain hosts data w :
  fst (list_subdomains self domain w) = inr (hosts, data) ->
  fst (_get self ("/domain/" +:+ domain +:+ "/subdomains") None 3 1 w) = inr data
  /\ exists names,
       hosts = sorted (list_to_set names)
       /\ forall h, h ∈ names -> h <> "" /\ exists p, h = p +:+ domain.
Proof.
  intros H.
  destruct (_get self ("/domain/" +:+ domain +:+ "/subdomains") None 3 1 w) as [[e|data'] w0]
    eqn:Hget.
  { rewrite (list_subdomains_get_raises self domain e w) in H; [done | by rewrite Hget]. }
  assert (Hget' : fst (_get self ("/domain/" +:+ domain +:+ "/subdomains") None 3 1 w)
                  = inr data') by by rewrite Hget.
  destruct (list_subdomains_get self domain data' w Hget') as [w1 E].
  unfold list_subdomains in H. unfold bind at 1 in H. cbn [log] in H.
  unfold bind at 1 in H. rewrite E in H.
  destruct (has_subdomains data') eqn:Hshape.
  - destruct data' as [| | | | |fields]; try discriminate. cbn [py_get lift] in H.
    unfold bind, lift, ret, raise in H.
    destruct (py_iter (dict_get "subdomains" fields (JArr []))) as [e|fragments];
      [discriminate|].
    destruct (collect_fragments domain fragments []) as [e|names] eqn:Hnames;
      [discriminate|].
    cbn in H. injection H as <- <-. split; [done|]. exists names. split; [done|].
    intros h Hh. destruct (collect_fragments_names _ _ _ _ Hnames h Hh) as [Hin|?]; [|done].
    inversion Hin.
  - cbn in H. injection H as <- <-. split; [done|]. exists []. split; [done|].
    intros h Hh. inversion Hh.
Qed.

(** X9: whatever the remote side answers, the hostnames [list_subdomains]
    returns are sorted, without duplicate, not empty, and each ends with the
    domain; and the raw document it returns is the body of a 200 answer of the
    remote side. *)
Theorem list_subdomains_result self domain hosts data w :
  fst (list_subdomains self domain w) = inr (hosts, data) ->
  NoDup hosts /\ StronglySorted String.le hosts
  /\ (forall h, h ∈ hosts -> h <> "" /\ exists p, h = p +:+ domain)
  /\ exists n, remote (session self) n
                 (get_request self ("/domain/" +:+ domain +:+ "/subdomains") None)
               = Response 200 (inr data).
Proof.
  intros H. destruct (list_subdomains_returned _ _ _ _ _ H) as (Hget & names & -> & Hnames).
  split; [apply NoDup_sorted|]. split; [apply StronglySorted_sorted|]. split.
  - intros h Hh. apply elem_of_sorted, elem_of_list_to_set in Hh. by apply Hnames.
  - by apply (attempts_returned _ _ _ _ _ _ _ Hget).
Qed.

Lemma list_subdomains_result_witness :
  exists hosts data,
    fst (list_subdomains
           (client_of (scripted [Response 200 (inr (JObj [("subdomains",
                                   JArr [JStr "www"; JStr "api.example.com"; JStr ""])]))]
                         (Fault "down")))
           "example.com" fresh) = inr (hosts, data)
    /\ NoDup hosts
    /\ forall h, h ∈ hosts -> h <> "" /\ exists p, h = p +:+ "example.com".
Proof.
  exists ["api.example.com"; "www.example.com"],
         (JObj [("subdomains", JArr [JStr "www"; JStr "api.example.com"; JStr ""])]).
  assert (fst (list_subdomains
                 (client_of (scripted [Response 200 (inr (JObj [("subdomains",
                                         JArr [JStr "www"; JStr "api.example.com"; JStr ""])]))]
                               (Fault "down")))
                 "example.com" fresh)
          = inr (["api.example.com"; "www.example.com"],
                 JObj [("subdomains", JArr [JStr "www"; JStr "api.example.com"; JStr ""])]))
    as E by (vm_compute; reflexivity).
  destruct (list_subdomains_result _ _ _ _ _ E) as (Hn & _ & H & _).
  split; [exact E|]. split; [exact Hn | exact H].
Defined.

(** X10: [list_subdomains] catches nothing: an exception of the request
    layer, the exhaustion error among them, is the exception of the call. *)
Theorem list_subdomains_propagates self domain e w :
  fst (_get self ("/domain/" +:+ domain +:+ "/subdomains") None 3 1 w) = inl e ->
  fst (list_subdomains self domain w) = inl e.
Proof. apply list_subdomains_get_raises. Qed.

Lemma list_subdomains_propagates_witness :
  fst (list_subdomains (client_of (scripted [] (Fault "timeout"))) "example.com" fresh)
  = inl (RuntimeError
           "GET request to https://api.securitytrails.com/v1/domain/example.com/subdomains failed after 3 attempts").
Proof.
  apply (list_subdomains_propagates (client_of (scripted [] (Fault "timeout"))) "example.com").
  reflexivity.
Defined.

(** X11: a [subdomains] field of another shape than a list of strings is not
    skipped: a null, a boolean or a number there is a [TypeError], and a list
    with an element that is not a string is an [AttributeError]. *)
Theorem list_subdomains_malformed_field self domain fields field w :
  fst (_get self ("/domain/" +:+ domain +:+ "/subdomains") None 3 1 w) = inr (JObj fields) ->
  lookup_field "subdomains" fields = Some field ->
  ((field = JNull \/ (exists b, field = JBool b) \/ (exists q, field = JNum q)) ->
   fst (list_subdomains self domain w) = inl TypeError)
  /\
  (forall items item,
     field = JArr items -> item ∈ items -> (forall s, item <> JStr s) ->
     fst (list_subdomains self domain w) = inl AttributeError).
Proof.
  intros H Hfield. split.
  - intros Hshape. apply (list_subdomains_field_raises self domain fields field); [done..|].
    by destruct Hshape as [-> | [[b ->] | [q ->]]].
  - intros items item -> Hin Hitem.
    apply (list_subdomains_field_raises self domain fields (JArr items)); [done..|].
    cbn [py_iter]. by apply (collect_fragments_not_string _ _ _ item).
Qed.

Lemma list_subdomains_malformed_field_witness :
  fst (list_subdomains
         (client_of (scripted [Response 200 (inr (JObj [("subdomains", JNull)]))] (Fault "down")))
         "example.com" fresh) = inl TypeError
  /\
  fst (list_subdomains
         (client_of (scripted [Response 200 (inr (JObj [("subdomains",
                                 JArr [JStr "www"; JNull])]))] (Fault "down")))
         "example.com" fresh) = inl AttributeError.
Proof.
  split.
  - destruct (list_subdomains_malformed_field
                (client_of (scripted [Response 200 (inr (JObj [("subdomains", JNull)]))]
                              (Fault "down")))
                "example.com" [("subdomains", JNull)] JNull fresh) as [H _];
      [reflexivity | reflexivity |].
    apply H. by left.
  - destruct (list_subdomains_malformed_field
                (client_of (scripted [Response 200 (inr (JObj [("subdomains",
                                        JArr [JStr "www"; JNull])]))] (Fault "down")))
                "example.com" [("subdomains", JArr [JStr "www"; JNull])]
                (JArr [JStr "www"; JNull]) fresh) as [_ H];
      [reflexivity | reflexivity |].
    apply (H [JStr "www"; JNull] JNull); [reflexivity | | done].
    right. left.
Defined.

(** X12: the hostnames [list_subdomains] returns depend on the set of the
    fragments only, not on their order or on how often one comes. *)
Theorem list_subdomains_set_of_fragments domain
    self1 fields1 (fragments1 : list string) w1
    self2 fields2 (fragments2 : list string) w2 :
  fst (_get self1 ("/domain/" +:+ domain +:+ "/subdomains") None 3 1 w1) = inr (JObj fields1) ->
  lookup_field "subdomains" fields1 = Some (JArr (map JStr fragments1)) ->
  fst (_get self2 ("/domain/" +:+ domain +:+ "/subdomains") None 3 1 w2) = inr (JObj fields2) ->
  lookup_field "subdomains" fields2 = Some (JArr (map JStr fragments2)) ->
  (forall s, s ∈ fragments1 <-> s ∈ fragments2) ->
  exists hosts,
    fst (list_subdomains self1 domain w1) = inr (hosts, JObj fields1)
    /\ fst (list_subdomains self2 domain w2) = inr (hosts, JObj fields2).
Proof.
  intros H1 F1 H2 F2 Hsame. eexists. split.
  - eapply list_subdomains_parsed; [exact H1 | exact F1 | reflexivity |].
    apply collect_fragments_strings.
  - erewrite list_subdomains_parsed; [| exact H2 | exact F2 | reflexivity |
                                      apply collect_fragments_strings].
    f_equal. f_equal. f_equal. apply set_eq. intros h.
    rewrite !elem_of_list_to_set. cbn [app]. rewrite !list_elem_of_omap.
    split; intros (s & Hs & E); exists s; split; try done; by apply Hsame.
Qed.

Lemma list_subdomains_set_of_fragments_witness :
  exists hosts,
    fst (list_subdomains
           (client_of (scripted [Response 200 (inr (JObj [("subdomains",
                                   JArr (map JStr ["www"; "api"; "www"]))]))] (Fault "down")))
           "example.com" fresh)
    = inr (hosts, JObj [("subdomains", JArr (map JStr ["www"; "api"; "www"]))])
    /\
    fst (list_subdomains
           (client_of (scripted [Response 200 (inr (JObj [("subdomains",
                                   JArr (map JStr ["api"; "www"]))]))] (Fault "down")))
           "example.com" fresh)
    = inr (hosts, JObj [("subdomains", JArr (map JStr ["api"; "www"]))]).
Proof.
  apply (list_subdomains_set_of_fragments "example.com"
           _ [("subdomains", JArr (map JStr ["www"; "api"; "www"]))] ["www"; "api"; "www"] fresh
           _ [("subdomains", JArr (map JStr ["api"; "www"]))] ["api"; "www"] fresh);
    try reflexivity.
  intros s. rewrite !elem_of_cons. rewrite !elem_of_nil. tauto.
Defined.

Lemma list_subdomains_sent self domain w :
  exists n, (n <= 3)%nat
    /\ sent (snd (list_subdomains self domain w))
       = sent w ++ replicate n (get_request self ("/domain/" +:+ domain +:+ "/subdomains") None).
Proof.
  unfold list_subdomains, _get. unfold bind at 1. cbn [log]. unfold bind at 1.
  match goal with |- context [attempts ?s ?r ?n ?b ?t ?w1] =>
    destruct (attempts_sent s r n b t w1) as (k & Hk & Hs);
    destruct (attempts s r n b t w1) as [[e|data] w2] end; cbn [snd sent] in *.
  - exists k. split; [exact Hk | exact Hs].
  - exists k. split; [exact Hk|]. rewrite <- Hs.
    unfold bind, lift, log, ret, raise. destruct_innermost; reflexivity.
Qed.

(** X13: whatever the remote side answers, [list_subdomains] calls
    [session.get] at most three times, every time for the URL of the
    subdomains of the domain, and makes no other call of the session.  This
    counts the calls, one entry of [sent] each, not what [requests] sends
    inside one call when it follows a redirect. *)
Theorem list_subdomains_requests self domain w :
  exists n, (n <= 3)%nat
    /\ sent (snd (list_subdomains self domain w))
       = sent w ++ replicate n (get_request self ("/domain/" +:+ domain +:+ "/subdomains") None).
Proof. apply list_subdomains_sent. Qed.

(** ** search_subdomains, whatever the remote side does *)

(** The loop over the records can only raise [AttributeError]; the names it
    adds are not empty and end with the domain. *)
Lemma add_candidate_names domain v all_subdomains all_subdomains' :
  add_candidate domain v all_subdomains = inr all_subdomains' ->
  forall h, h ∈ all_subdomains' ->
            h ∈ all_subdomains \/ (h <> "" /\ exists p, h = p +:+ domain).
Proof.
  unfold add_candidate. destruct (truthy v) eqn:Hv; [|by intros [= <-]; auto].
  destruct v as [| | |name| |]; try discriminate.
  destruct (endswith name domain) eqn:He; intros [= <-] h Hh; [|by left].
  apply elem_of_union in Hh as [->%elem_of_singleton|?]; [|by left].
  right. split; [by apply nonempty_true | by apply endswith_spec].
Qed.

Lemma collect_records_names domain records all_subdomains all_subdomains' :
  collect_records domain records all_subdomains = inr all_subdomains' ->
  forall h, h ∈ all_subdomains' ->
            h ∈ all_subdomains \/ (h <> "" /\ exists p, h = p +:+ domain).
Proof.
  revert all_subdomains. induction records as [|r records IH]; intros acc.
  - intros [= <-] h Hh. by left.
  - cbn [collect_records]. destruct (candidate r) as [e|v]; [discriminate|].
    destruct (add_candidate domain v acc) as [e|acc1] eqn:Hadd; [discriminate|].
    intros H h Hh. destruct (IH _ H h Hh) as [Hin|?]; [|by right].
    by apply (add_candidate_names _ _ _ _ Hadd).
Qed.

Lemma collect_records_raises domain records all_subdomains e :
  collect_records domain records all_subdomains = inl e -> e = AttributeError.
Proof.
  revert all_subdomains. induction records as [|r records IH]; intros acc; [discriminate|].
  cbn [collect_records]. destruct (candidate r) as [e'|v] eqn:Hc.
  - intros [= <-]. unfold candidate in Hc.
    destruct r as [| | | | |fields]; cbn in Hc; try by injection Hc as <-.
    by destruct (truthy (dict_get "hostname" fields JNull)).
  - destruct (add_candidate domain v acc) as [e'|acc1] eqn:Hadd; [|apply IH].
    intros [= <-]. unfold add_candidate in Hadd.
    destruct (truthy v); [|done]. by destruct v; try injection Hadd as <-.
Qed.

Lemma collect_records_bad_record domain records all_subdomains r :
  r ∈ records ->
  (forall fields, r <> JObj fields)
  \/ (exists v, candidate r = inr v /\ truthy v = true /\ forall s, v <> JStr s) ->
  collect_records domain records all_subdomains = inl AttributeError.
Proof.
  intros Hin Hbad.
  destruct (collect_records domain records all_subdomains) as [e|acc'] eqn:E.
  { f_equal. by eapply collect_records_raises. }
  exfalso. revert all_subdomains E.
  induction records as [|r' records IH]; intros acc E; [by inversion Hin|].
  cbn [collect_records] in E.
  destruct (candidate r') as [e|v] eqn:Hc; [discriminate|].
  destruct (add_candidate domain v acc) as [e|acc1] eqn:Hadd; [discriminate|].
  apply elem_of_cons in Hin as [->|Hin]; [|by apply (IH Hin acc1)].
  destruct Hbad as [Hdict|(v' & Hv' & Htrue & Hstr)].
  - destruct r' as [| | | | |fields]; try discriminate. by apply (Hdict fields).
  - rewrite Hv' in Hc. injection Hc as ->. unfold add_candidate in Hadd.
    rewrite Htrue in Hadd. destruct v; try discriminate. by apply (Hstr s).
Qed.

(** One turn of the loop over the pages whose page cannot be read: the
    exception ends the search. *)
Lemma search_pages_page_raises self domain page_size page todo all_subdomains raw_pages w
    resp e :
  remote (session self) (length (sent w)) (search_request self domain page_size page)
    = Response 200 (inr resp) ->
  match py_get resp "records" (JArr []) with
  | inl e' => inl e'
  | inr records =>
      match py_iter records with
      | inl e' => inl e'
      | inr items => collect_records domain items all_subdomains
      end
  end = inl e ->
  fst (search_pages self domain page_size (page :: todo) all_subdomains raw_pages w) = inl e.
Proof.
  intros H Hraise.
  cbn [search_pages]. unfold bind at 1. cbn [log]. unfold bind at 1. unfold _post.
  rewrite (attempts_first_200 _ _ _ _ resp) by (lia || exact H).
  unfold bind, lift, ret, raise.
  destruct (py_get resp "records" (JArr [])) as [e'|records]; [by injection Hraise as ->|].
  destruct (py_iter records) as [e'|items]; [by injection Hraise as ->|].
  by rewrite Hraise.
Qed.

(** The invariants of the loop over the pages. *)
Lemma search_pages_names self domain page_size todo all_subdomains raw_pages w
    all_subdomains' raw_pages' :
  fst (search_pages self domain page_size todo all_subdomains raw_pages w)
  = inr (all_subdomains', raw_pages') ->
  (forall h, h ∈ all_subdomains' ->
             h ∈ all_subdomains \/ (h <> "" /\ exists p, h = p +:+ domain))
  /\ (length raw_pages' <= length raw_pages + length todo)%nat.
Proof.
  revert all_subdomains raw_pages w.
  induction todo as [|page todo IH]; intros acc raw w.
  - cbn. intros [= <- <-]. split; [auto | lia].
  - cbn [search_pages length]. unfold bind at 1. cbn [log]. unfold bind at 1.
    destruct (_post _ _ _ _ _ _) as [[e|resp] w2]; [discriminate|].
    unfold bind, lift, raise, ret, log, sleep.
    destruct (py_get resp "records" (JArr [])) as [e|records]; [discriminate|].
    destruct (py_iter records) as [e|items]; [discriminate|].
    destruct (collect_records domain items acc) as [e|acc1] eqn:Hacc; [discriminate|].
    destruct (negb (truthy records)).
    + cbn. intros [= <- <-]. split; [by apply (collect_records_names _ _ _ _ Hacc)|].
      rewrite length_app. cbn. lia.
    + change (Qle_bool 0 (3 # 10)) with true. cbv iota. intros H.
      destruct (IH _ _ _ H) as [Hnames Hlen]. split.
      * intros h Hh. destruct (Hnames h Hh) as [Hin|?]; [|by right].
        by apply (collect_records_names _ _ _ _ Hacc).
      * rewrite length_app in Hlen. cbn in Hlen. lia.
Qed.

Lemma search_pages_sent self domain page_size todo all_subdomains raw_pages w :
  exists requests,
    sent (snd (search_pages self domain page_size todo all_subdomains raw_pages w))
    = sent w ++ requests
    /\ (length requests <= 3 * length todo)%nat
    /\ Forall (fun r => exists page, page ∈ todo
                                     /\ r = search_request self domain page_size page)
              requests.
Proof.
  revert all_subdomains raw_pages w.
  induction todo as [|page todo IH]; intros acc raw w.
  - exists []. cbn. by rewrite app_nil_r.
  - cbn [search_pages length]. unfold bind at 1. cbn [log]. unfold bind at 1, _post.
    match goal with |- context [attempts ?s ?r ?n ?b ?t ?w1] =>
      destruct (attempts_sent s r n b t w1) as (k & Hk & Hs);
      destruct (attempts s r n b t w1) as [[e|resp] w2] end;
      cbn [snd sent] in *;
      change (length (range 1 (3 + 1))) with 3%nat in Hk.
    + eexists. split; [exact Hs|]. split; [rewrite length_replicate; lia|].
      apply Forall_replicate. exists page. split; [by left | done].
    + unfold bind, lift, raise, ret, log, sleep.
      assert (Hthis : Forall (fun r => exists page', page' ∈ page :: todo
                        /\ r = search_request self domain page_size page')
                        (replicate k (search_request self domain page_size page))).
      { apply Forall_replicate. exists page. split; [by left | done]. }
      destruct (py_get resp "records" (JArr [])) as [e|records]; cbn [snd].
      { eexists. split; [exact Hs|]. split; [rewrite length_replicate; lia | done]. }
      destruct (py_iter records) as [e|items]; cbn [snd].
      { eexists. split; [exact Hs|]. split; [rewrite length_replicate; lia | done]. }
      destruct (collect_records domain items acc) as [e|acc1]; cbn [snd].
      { eexists. split; [exact Hs|]. split; [rewrite length_replicate; lia | done]. }
      destruct (negb (truthy records)); cbn [snd sent].
      { eexists. split; [exact Hs|]. split; [rewrite length_replicate; lia | done]. }
      change (Qle_bool 0 (3 # 10)) with true. cbv iota.
      match goal with |- context [search_pages _ _ _ _ ?a ?r ?w3] =>
        destruct (IH a r w3) as (rest & Hrest & Hlen & Hall) end.
      cbn [sent] in Hrest.
      exists (replicate k (search_request self domain page_size page) ++ rest).
      split; [by rewrite Hrest, Hs, <- app_assoc|]. split.
      * rewrite length_app, length_replicate. lia.
      * apply Forall_app. split; [done|].
        eapply Forall_impl; [exact Hall|]. intros r (page' & Hin & ->).
        exists page'. split; [by right | done].
Qed.

(** X14: whatever the remote side answers, the hostnames [search_subdomains]
    returns are sorted, without duplicate, not empty, and each ends with the
    domain; and the raw document holds at most [max_pages] pages. *)
Theorem search_subdomains_result self domain page_size max_pages hosts raw w :
  fst (search_subdomains self domain page_size max_pages w) = inr (hosts, raw) ->
  NoDup hosts /\ StronglySorted String.le hosts
  /\ (forall h, h ∈ hosts -> h <> "" /\ exists p, h = p +:+ domain)
  /\ exists pages, raw = JObj [("pages", JArr pages)]
                   /\ (length pages <= Z.to_nat max_pages)%nat.
Proof.
  unfold search_subdomains, bind.
  destruct (search_pages self domain page_size (range 1 (max_pages + 1)) ∅ [] w)
    as [[e|[found pages]] w1] eqn:E; [discriminate|].
  cbn. intros [= <- <-].
  destruct (search_pages_names self domain page_size (range 1 (max_pages + 1)) ∅ [] w
              found pages) as [Hnames Hlen]; [by rewrite E|].
  split; [apply NoDup_sorted|]. split; [apply StronglySorted_sorted|]. split.
  - intros h Hh. apply elem_of_sorted in Hh.
    destruct (Hnames h Hh) as [Hin|?]; [|done]. by apply not_elem_of_empty in Hin.
  - exists pages. split; [done|]. unfold range in Hlen. rewrite length_seqZ in Hlen.
    cbn in Hlen. lia.
Qed.

Lemma search_subdomains_result_witness :
  exists hosts raw,
    fst (search_subdomains
           (client_of (scripted [Response 200 (inr page_evil);
                                 Response 200 (inr page_end)] (Fault "down")))
           "example.com" 100 10 fresh) = inr (hosts, raw)
    /\ NoDup hosts
    /\ forall h, h ∈ hosts -> h <> "" /\ exists p, h = p +:+ "example.com".
Proof.
  exists ["api.example.com"; "evil-example.com"], (JObj [("pages", JArr [page_evil; page_end])]).
  assert (fst (search_subdomains
                 (client_of (scripted [Response 200 (inr page_evil);
                                       Response 200 (inr page_end)] (Fault "down")))
                 "example.com" 100 10 fresh)
          = inr (["api.example.com"; "evil-example.com"],
                 JObj [("pages", JArr [page_evil; page_end])]))
    as E by (vm_compute; reflexivity).
  destruct (search_subdomains_result _ _ _ _ _ _ _ E) as (Hn & _ & H & _).
  split; [exact E|]. split; [exact Hn | exact H].
Defined.

(** X15: with [max_pages] at 0 or below, [search_subdomains] sends nothing
    and returns no hostname and no page. *)
Theorem search_subdomains_no_page self domain page_size max_pages w :
  max_pages <= 0 ->
  search_subdomains self domain page_size max_pages w =
    (inr ([], JObj [("pages", JArr [])]),
     {| sent := sent w; slept := slept w;
        logged := logged w ++ [(INFO, Aggregated 0)] |}).
Proof.
  intros H. unfold search_subdomains, range. rewrite seqZ_nil by lia. reflexivity.
Qed.

Lemma search_subdomains_no_page_witness :
  fst (search_subdomains (client_of (scripted [] (Response 200 (inr page_www_api))))
         "example.com" 100 0 fresh)
  = inr ([], JObj [("pages", JArr [])]).
Proof.
  rewrite (search_subdomains_no_page
             (client_of (scripted [] (Response 200 (inr page_www_api))))
             "example.com" 100 0 fresh) by lia.
  reflexivity.
Defined.

(** The turns of the loop that get pages with records, with the pauses they
    make. *)
Lemma search_pages_full_pages_paused self domain page_size front :
  forall todo rest all_subdomains raw_pages w,
  length todo = length front ->
  Forall is_full_page front ->
  (forall i resp, front !! i = Some resp ->
     forall req, remote (session self) (length (sent w) + i)%nat req = Response 200 (inr resp)) ->
  exists all_subdomains' w',
    search_pages self domain page_size (todo ++ rest) all_subdomains raw_pages w
    = search_pages self domain page_size rest all_subdomains' (raw_pages ++ front) w'
    /\ sent w' = sent w ++ map (search_request self domain page_size) todo
    /\ slept w' = slept w ++ replicate (length front) (3 # 10)%Q.
Proof.
  induction front as [|resp front IH]; intros todo rest acc raw w Hlen Hfull H.
  - destruct todo; [|discriminate]. exists acc, w. cbn [app map length replicate].
    by rewrite !app_nil_r.
  - destruct todo as [|page todo]; [discriminate|]. injection Hlen as Hlen.
    apply Forall_cons in Hfull as [(items & Hpage & Hne) Hfull].
    destruct (page_records_inv _ _ Hpage) as (fields & _ & _ & Hok).
    destruct (collect_records_page domain items acc Hok) as (acc1 & Hacc1 & _).
    cbn [app].
    rewrite (search_pages_step _ _ _ _ _ _ _ _ resp items acc1); [| |done|done].
    2:{ specialize (H 0%nat resp eq_refl). rewrite Nat.add_0_r in H. apply H. }
    rewrite bool_decide_false by done.
    destruct (IH todo rest acc1 (raw ++ [resp])
                {| sent := sent w ++ [search_request self domain page_size page];
                   slept := slept w ++ [3 # 10];
                   logged := logged w ++ [(INFO, FetchingPage page)] |})
      as (acc2 & w2 & E & S & Z); [exact Hlen | exact Hfull | | ].
    { intros i resp' Hi req. cbn [sent]. rewrite length_app. cbn [length].
      replace (length (sent w) + 1 + i)%nat with (length (sent w) + S i)%nat by lia.
      by apply H. }
    exists acc2, w2. split; [|split].
    + rewrite E. by rewrite <- app_assoc.
    + rewrite S. cbn [sent map]. by rewrite <- app_assoc.
    + rewrite Z. cbn [slept length replicate]. by rewrite <- app_assoc.
Qed.

(** X16: [search_subdomains] pauses 0.3 after every page with records, also
    after page [max_pages], and not after the page without records that ends
    the search. *)
Theorem search_subdomains_pauses self domain page_size max_pages front w :
  Forall is_full_page front ->
  (forall last,
     Z.of_nat (length front) < max_pages ->
     page_records last = Some [] ->
     (forall i resp, (front ++ [last]) !! i = Some resp ->
        forall req, remote (session self) (length (sent w) + i)%nat req
                    = Response 200 (inr resp)) ->
     slept (snd (search_subdomains self domain page_size max_pages w))
     = slept w ++ replicate (length front) (3 # 10)%Q)
  /\
  (Z.of_nat (length front) = max_pages ->
   (forall i resp, front !! i = Some resp ->
      forall req, remote (session self) (length (sent w) + i)%nat req
                  = Response 200 (inr resp)) ->
   slept (snd (search_subdomains self domain page_size max_pages w))
   = slept w ++ replicate (length front) (3 # 10)%Q).
Proof.
  intros Hfull. split.
  - intros last Hk Hlast H.
    set (k := Z.of_nat (length front)) in *.
    unfold search_subdomains, range.
    replace (max_pages + 1 - 1) with (k + (max_pages - k)) by lia.
    rewrite seqZ_app by lia. rewrite (seqZ_cons (1 + k)) by lia.
    destruct (search_pages_full_pages_paused self domain page_size front (seqZ 1 k)
                ((1 + k) :: seqZ (Z.succ (1 + k)) (Z.pred (max_pages - k))) ∅ [] w)
      as (found & w1 & E & S & Z); [| exact Hfull | |].
    { rewrite length_seqZ. unfold k. lia. }
    { intros i resp Hi. apply H. by apply lookup_app_l_Some. }
    unfold bind at 1. rewrite E.
    rewrite (search_pages_step _ _ _ _ _ _ _ _ last [] found); [| | exact Hlast | done].
    2:{ rewrite S, length_app, length_map, length_seqZ. apply H.
        replace (Z.to_nat k) with (length front) by (unfold k; lia).
        rewrite lookup_app_r by lia. by rewrite Nat.sub_diag. }
    rewrite bool_decide_true by done. cbn. exact Z.
  - intros Hk H. unfold search_subdomains, range.
    replace (max_pages + 1 - 1) with max_pages by lia.
    destruct (search_pages_full_pages_paused self domain page_size front (seqZ 1 max_pages)
                [] ∅ [] w) as (found & w1 & E & S & Z); [| exact Hfull | exact H |].
    { rewrite length_seqZ. lia. }
    rewrite app_nil_r in E. unfold bind at 1. rewrite E. cbn. exact Z.
Qed.

Lemma search_subdomains_pauses_witness :
  slept (snd (search_subdomains
                (client_of (scripted [Response 200 (inr page_www_api);
                                      Response 200 (inr page_mail);
                                      Response 200 (inr page_end)] (Fault "down")))
                "example.com" 100 10 fresh))
  = [(3 # 10)%Q; (3 # 10)%Q]
  /\
  slept (snd (search_subdomains
                (client_of (scripted [] (Response 200 (inr page_www_api))))
                "example.com" 100 2 fresh))
  = [(3 # 10)%Q; (3 # 10)%Q].
Proof.
  split.
  - destruct (search_subdomains_pauses
                (client_of (scripted [Response 200 (inr page_www_api);
                                      Response 200 (inr page_mail);
                                      Response 200 (inr page_end)] (Fault "down")))
                "example.com" 100 10 [page_www_api; page_mail] fresh) as [H _].
    { repeat constructor; eexists; (split; [reflexivity | done]). }
    apply (H page_end); [cbn; lia | reflexivity |].
    intros [|[|[|i]]] resp [= <-] req; reflexivity.
  - destruct (search_subdomains_pauses
                (client_of (scripted [] (Response 200 (inr page_www_api))))
                "example.com" 100 2 [page_www_api; page_www_api] fresh) as [_ H].
    { repeat constructor; eexists; (split; [reflexivity | done]). }
    apply H; [reflexivity|].
    intros [|[|i]] resp [= <-] req; reflexivity.
Defined.

(** One turn of the loop over the pages whose request is exhausted. *)
Lemma search_pages_exhausted self domain page_size page todo all_subdomains raw_pages w :
  (forall i, (i < 3)%nat ->
     status_of (remote (session self) (length (sent w) + i)%nat
                  (search_request self domain page_size page)) <> Some 200) ->
  exists w',
    search_pages self domain page_size (page :: todo) all_subdomains raw_pages w
    = (inl (RuntimeError ("POST request to " +:+ (base self +:+ "/domains/list")
                          +:+ " failed after 3 attempts")), w')
    /\ sent w' = sent w ++ replicate 3 (search_request self domain page_size page).
Proof.
  intros H. cbn [search_pages]. unfold bind at 1. cbn [log]. unfold bind at 1, _post.
  destruct (range_from_1 3) as [Hall Hlen]; [lia|].
  destruct (attempts_exhausted self (search_request self domain page_size page) 3 1
              ltac:(done) (range 1 (3 + 1))
              {| sent := sent w; slept := slept w;
                 logged := logged w ++ [(INFO, FetchingPage page)] |} Hall)
    as (w' & E & S).
  { rewrite Hlen. exact H. }
  unfold search_request in E. rewrite E. exists w'. split; [reflexivity|].
  rewrite S, Hlen. reflexivity.
Qed.

(** X17: when the request for a page is exhausted, [search_subdomains] raises
    the exhaustion error of [_post], and the hostnames of the pages before,
    each fetched with one request, are not returned. *)
Theorem search_subdomains_exhausted_page self domain page_size max_pages front w :
  Z.of_nat (length front) < max_pages ->
  Forall is_full_page front ->
  (forall i resp, front !! i = Some resp ->
     forall req, remote (session self) (length (sent w) + i)%nat req
                 = Response 200 (inr resp)) ->
  (forall i req, (i < 3)%nat ->
     status_of (remote (session self) (length (sent w) + length front + i)%nat req)
     <> Some 200) ->
  exists w',
    search_subdomains self domain page_size max_pages w
    = (inl (RuntimeError ("POST request to " +:+ (base self +:+ "/domains/list")
                          +:+ " failed after 3 attempts")), w')
    /\ sent w' = sent w
                 ++ map (search_request self domain page_size) (seqZ 1 (Z.of_nat (length front)))
                 ++ replicate 3 (search_request self domain page_size
                                   (1 + Z.of_nat (length front))).
Proof.
  intros Hk Hfull H Hfail.
  set (k := Z.of_nat (length front)) in *.
  unfold search_subdomains, range.
  replace (max_pages + 1 - 1) with (k + (max_pages - k)) by lia.
  rewrite seqZ_app by lia. rewrite (seqZ_cons (1 + k)) by lia.
  destruct (search_pages_full_pages self domain page_size front (seqZ 1 k)
              ((1 + k) :: seqZ (Z.succ (1 + k)) (Z.pred (max_pages - k))) ∅ [] w)
    as (found & w1 & E & S & _); [| exact Hfull | exact H |].
  { rewrite length_seqZ. unfold k. lia. }
  unfold bind at 1. rewrite E.
  destruct (search_pages_exhausted self domain page_size (1 + k)
              (seqZ (Z.succ (1 + k)) (Z.pred (max_pages - k))) found ([] ++ front) w1)
    as (w' & E' & S').
  { intros i Hi. rewrite S, length_app, length_map, length_seqZ.
    replace (Z.to_nat k) with (length front) by (unfold k; lia). by apply Hfail. }
  rewrite E'. exists w'. split; [reflexivity|]. by rewrite S', S, <- app_assoc.
Qed.

Lemma search_subdomains_exhausted_page_witness :
  exists w',
    search_subdomains (client_of (scripted [Response 200 (inr page_www_api)]
                                    (Response 503 (inr JNull))))
      "example.com" 100 10 fresh
    = (inl (RuntimeError
              "POST request to https://api.securitytrails.com/v1/domains/list failed after 3 attempts"),
       w')
    /\ length (sent w') = 4%nat.
Proof.
  destruct (search_subdomains_exhausted_page
              (client_of (scripted [Response 200 (inr page_www_api)]
                            (Response 503 (inr JNull))))
              "example.com" 100 10 [page_www_api] fresh) as (w' & E & S).
  - cbn. lia.
  - repeat constructor. eexists. split; [reflexivity | done].
  - intros [|i] resp [= <-] req. reflexivity.
  - intros [|[|[|i]]] req Hi; [done..|lia].
  - exists w'. split; [exact E | by rewrite S].
Defined.

(** X18: a page of another shape than the documented one is not skipped:
    after pages with records, a 200 body that is not a dict or a record that
    is not a dict is an [AttributeError], as is a candidate that is neither
    empty nor a string, and [records] that are null, a boolean or a number are
    a [TypeError]. *)
Theorem search_subdomains_malformed_page self domain page_size max_pages front bad w :
  Z.of_nat (length front) < max_pages ->
  Forall is_full_page front ->
  (forall i resp, (front ++ [bad]) !! i = Some resp ->
     forall req, remote (session self) (length (sent w) + i)%nat req
                 = Response 200 (inr resp)) ->
  ((forall fields, bad <> JObj fields) ->
   fst (search_subdomains self domain page_size max_pages w) = inl AttributeError)
  /\
  (forall fields v,
     bad = JObj fields -> lookup_field "records" fields = Some v ->
     v = JNull \/ (exists b, v = JBool b) \/ (exists q, v = JNum q) ->
     fst (search_subdomains self domain page_size max_pages w) = inl TypeError)
  /\
  (forall fields items r,
     bad = JObj fields -> lookup_field "records" fields = Some (JArr items) ->
     r ∈ items ->
     (forall record, r <> JObj record)
     \/ (exists v, candidate r = inr v /\ truthy v = true /\ forall s, v <> JStr s) ->
     fst (search_subdomains self domain page_size max_pages w) = inl AttributeError).
Proof.
  intros Hk Hfull H.
  assert (Hrun : forall e,
            (forall found,
               match py_get bad "records" (JArr []) with
               | inl e' => inl e'
               | inr records =>
                   match py_iter records with
                   | inl e' => inl e'
                   | inr items => collect_records domain items found
                   end
               end = inl e) ->
            fst (search_subdomains self domain page_size max_pages w) = inl e).
  { intros e Hraise.
    set (k := Z.of_nat (length front)) in *.
    unfold search_subdomains, range.
    replace (max_pages + 1 - 1) with (k + (max_pages - k)) by lia.
    rewrite seqZ_app by lia. rewrite (seqZ_cons (1 + k)) by lia.
    destruct (search_pages_full_pages self domain page_size front (seqZ 1 k)
                ((1 + k) :: seqZ (Z.succ (1 + k)) (Z.pred (max_pages - k))) ∅ [] w)
      as (found & w1 & E & S & _); [| exact Hfull | |].
    { rewrite length_seqZ. unfold k. lia. }
    { intros i resp Hi. apply H. by apply lookup_app_l_Some. }
    unfold bind at 1. rewrite E.
    pose proof (search_pages_page_raises self domain page_size (1 + k)
                  (seqZ (Z.succ (1 + k)) (Z.pred (max_pages - k))) found ([] ++ front) w1
                  bad e) as Hpage.
    destruct (search_pages _ _ _ _ _ _ w1) as [r w2]. cbn [fst] in *.
    rewrite Hpage; [done| |apply Hraise].
    rewrite S, length_app, length_map, length_seqZ. apply H.
    replace (Z.to_nat k) with (length front) by (unfold k; lia).
    rewrite lookup_app_r by lia. by rewrite Nat.sub_diag. }
  split; [|split].
  - intros Hbad. apply Hrun. intros found.
    destruct bad as [| | | | |fields]; try reflexivity. by edestruct Hbad.
  - intros fields v -> Hv Hshape. apply Hrun. intros found.
    cbn [py_get]. unfold dict_get. rewrite Hv.
    by destruct Hshape as [-> | [[b ->] | [q ->]]].
  - intros fields items r -> Hitems Hin Hbad. apply Hrun. intros found.
    cbn [py_get]. unfold dict_get. rewrite Hitems. cbn [py_iter].
    by apply (collect_records_bad_record _ _ _ r).
Qed.

Lemma search_subdomains_malformed_page_witness :
  fst (search_subdomains
         (client_of (scripted [Response 200 (inr page_www_api);
                               Response 200 (inr (JArr []))] (Fault "down")))
         "example.com" 100 10 fresh) = inl AttributeError
  /\
  fst (search_subdomains
         (client_of (scripted [Response 200 (inr (JObj [("records", JNull)]))] (Fault "down")))
         "example.com" 100 10 fresh) = inl TypeError
  /\
  fst (search_subdomains
         (client_of (scripted [Response 200 (inr (JObj [("records",
                                 JArr [JObj [("hostname", JNum 7)]])]))] (Fault "down")))
         "example.com" 100 10 fresh) = inl AttributeError.
Proof.
  split; [|split].
  - destruct (search_subdomains_malformed_page
                (client_of (scripted [Response 200 (inr page_www_api);
                                      Response 200 (inr (JArr []))] (Fault "down")))
                "example.com" 100 10 [page_www_api] (JArr []) fresh) as (Hraise & _).
    + cbn. lia.
    + repeat constructor. eexists. split; [reflexivity | done].
    + intros [|[|i]] resp [= <-] req; reflexivity.
    + apply Hraise. done.
  - destruct (search_subdomains_malformed_page
                (client_of (scripted [Response 200 (inr (JObj [("records", JNull)]))]
                              (Fault "down")))
                "example.com" 100 10 [] (JObj [("records", JNull)]) fresh) as (_ & Hraise & _).
    + cbn. lia.
    + constructor.
    + intros [|i] resp [= <-] req; reflexivity.
    + apply (Hraise [("records", JNull)] JNull); [reflexivity | reflexivity | by left].
  - destruct (search_subdomains_malformed_page
                (client_of (scripted [Response 200 (inr (JObj [("records",
                                        JArr [JObj [("hostname", JNum 7)]])]))] (Fault "down")))
                "example.com" 100 10 []
                (JObj [("records", JArr [JObj [("hostname", JNum 7)]])]) fresh)
      as (_ & _ & Hraise).
    + cbn. lia.
    + constructor.
    + intros [|i] resp [= <-] req; reflexivity.
    + apply (Hraise [("records", JArr [JObj [("hostname", JNum 7)]])]
               [JObj [("hostname", JNum 7)]] (JObj [("hostname", JNum 7)]));
        [reflexivity | reflexivity | by left |].
      right. exists (JNum 7). split; [reflexivity|]. split; [reflexivity | done].
Defined.

(** X19: a 200 body that is a dict without a [records] key, an error document
    say, ends the search as a page without records does: no exception, and
    the pages after it are not asked for. *)
Theorem search_subdomains_missing_records self domain page_size max_pages front fields w :
  Z.of_nat (length front) < max_pages ->
  Forall is_full_page front ->
  lookup_field "records" fields = None ->
  (forall i resp, (front ++ [JObj fields]) !! i = Some resp ->
     forall req, remote (session self) (length (sent w) + i)%nat req
                 = Response 200 (inr resp)) ->
  exists hosts w',
    search_subdomains self domain page_size max_pages w
    = (inr (hosts, JObj [("pages", JArr (front ++ [JObj fields]))]), w')
    /\ sent w' = sent w ++ map (search_request self domain page_size)
                             (seqZ 1 (Z.of_nat (length front) + 1)).
Proof.
  intros Hk Hfull Hmissing H.
  destruct (search_subdomains_until_empty self domain page_size max_pages front
              (JObj fields) w) as (found & w' & E & S & _); [done | done | | done |].
  { cbn [page_records]. unfold dict_get. by rewrite Hmissing. }
  exists (sorted found), w'. by split.
Qed.

Lemma search_subdomains_missing_records_witness :
  exists hosts w',
    search_subdomains
      (client_of (scripted [Response 200 (inr page_www_api);
                            Response 200 (inr (JObj [("message", JStr "quota exceeded")]))]
                    (Response 200 (inr page_mail))))
      "example.com" 100 10 fresh
    = (inr (hosts, JObj [("pages", JArr [page_www_api;
                                         JObj [("message", JStr "quota exceeded")]])]), w')
    /\ length (sent w') = 2%nat.
Proof.
  destruct (search_subdomains_missing_records
              (client_of (scripted [Response 200 (inr page_www_api);
                                    Response 200 (inr (JObj [("message", JStr "quota exceeded")]))]
                            (Response 200 (inr page_mail))))
              "example.com" 100 10 [page_www_api] [("message", JStr "quota exceeded")] fresh)
    as (hosts & w' & E & S).
  - cbn. lia.
  - repeat constructor. eexists. split; [reflexivity | done].
  - reflexivity.
  - intros [|[|i]] resp [= <-] req; reflexivity.
  - exists hosts, w'. split; [exact E | by rewrite S].
Defined.

Lemma search_subdomains_sent self domain page_size max_pages w :
  exists requests,
    sent (snd (search_subdomains self domain page_size max_pages w)) = sent w ++ requests
    /\ (length requests <= 3 * Z.to_nat max_pages)%nat
    /\ Forall (fun r => exists page, 1 <= page <= max_pages
                                     /\ r = search_request self domain page_size page)
              requests.
Proof.
  destruct (search_pages_sent self domain page_size (range 1 (max_pages + 1)) ∅ [] w)
    as (requests & Hs & Hlen & Hall).
  exists requests. split; [|split].
  - unfold search_subdomains, bind.
    destruct (search_pages _ _ _ _ _ _ w) as [[e|found] w1]; cbn [snd] in *; done.
  - unfold range in Hlen. rewrite length_seqZ in Hlen. lia.
  - eapply Forall_impl; [exact Hall|]. intros r (page & Hin & ->).
    exists page. split; [|done]. unfold range in Hin. apply elem_of_seqZ in Hin. lia.
Qed.

(** X20: whatever the remote side answers, every call of the session that
    [search_subdomains] makes is a call of [session.post] with the search of
    one of the pages 1 to [max_pages], and there are at most three calls for
    each page.  This counts the calls, one entry of [sent] each, not what
    [requests] sends inside one call when it follows a redirect. *)
Theorem search_subdomains_requests self domain page_size max_pages w :
  exists requests,
    sent (snd (search_subdomains self domain page_size max_pages w)) = sent w ++ requests
    /\ (length requests <= 3 * Z.to_nat max_pages)%nat
    /\ Forall (fun r => exists page, 1 <= page <= max_pages
                                     /\ r = search_request self domain page_size page)
              requests.
Proof. apply search_subdomains_sent. Qed.

(** ** merge_sources *)

(** [merge_sources] is a function of the hostnames of its arguments. *)
Lemma merge_sources_ext (lists1 lists2 : list (option (list string))) :
  (forall x, (exists l, Some l ∈ lists1 /\ x ∈ l) <-> (exists l, Some l ∈ lists2 /\ x ∈ l)) ->
  merge_sources lists1 = merge_sources lists2.
Proof.
  intros H. unfold merge_sources. f_equal. apply set_eq. intros x.
  rewrite !elem_of_merge_fold. split; intros [Hx|Hx]; try (by apply not_elem_of_empty in Hx).
  - right. by apply H.
  - right. by apply H.
Qed.

Lemma sorted_fixed (l : list string) :
  StronglySorted String.le l -> NoDup l -> sorted (list_to_set l) = l.
Proof.
  intros Hs Hn. unfold sorted.
  apply (StronglySorted_unique String.le).
  - apply StronglySorted_merge_sort; apply _.
  - exact Hs.
  - rewrite merge_sort_Permutation. by apply elements_list_to_set.
Qed.

Lemma merge_sources_one (l : list string) :
  merge_sources [Some l] = sorted (list_to_set l).
Proof.
  unfold merge_sources. cbn. f_equal. apply set_eq. intros x.
  rewrite elem_of_union. split; [intros [H|H]; [by apply not_elem_of_empty in H | done] | auto].
Qed.

(** X21: the output of [merge_sources] holds the hostnames of its arguments
    and no other, an argument that is [None] giving none; so it is empty
    exactly when every argument is [None] or empty. *)
Theorem merge_sources_union (lists : list (option (list string))) :
  (forall x, x ∈ merge_sources lists <-> exists l, Some l ∈ lists /\ x ∈ l)
  /\ (merge_sources lists = [] <-> forall l, Some l ∈ lists -> l = []).
Proof.
  split; [apply elem_of_merge_sources|]. split.
  - intros Hnil l Hl. destruct l as [|x l]; [done|]. exfalso.
    assert (x ∈ merge_sources lists) as Hx.
    { apply elem_of_merge_sources. exists (x :: l). split; [done | by left]. }
    rewrite Hnil in Hx. inversion Hx.
  - intros Hall. destruct (merge_sources lists) as [|x rest] eqn:E; [done|]. exfalso.
    assert (x ∈ merge_sources lists) as Hx by (rewrite E; by left).
    apply elem_of_merge_sources in Hx as (l & Hl & Hx).
    rewrite (Hall l Hl) in Hx. inversion Hx.
Qed.

(** X22: [merge_sources] does not depend on the order of its arguments, on
    the order of the hostnames in them, or on repetitions: arguments with
    the same hostnames give the same output. *)
Theorem merge_sources_same_hostnames (lists1 lists2 : list (option (list string))) :
  ((forall x, (exists l, Some l ∈ lists1 /\ x ∈ l) <-> (exists l, Some l ∈ lists2 /\ x ∈ l)) ->
   merge_sources lists1 = merge_sources lists2)
  /\ (lists1 ≡ₚ lists2 -> merge_sources lists1 = merge_sources lists2)
  /\ merge_sources (lists1 ++ lists2) = merge_sources (lists2 ++ lists1)
  /\ merge_sources (lists1 ++ lists1) = merge_sources lists1.
Proof.
  split; [apply merge_sources_ext|]. split; [|split].
  - intros Hp. apply merge_sources_ext. intros x.
    split; intros (l & Hl & Hx); exists l; (split; [|done]).
    + by rewrite <- Hp.
    + by rewrite Hp.
  - apply merge_sources_ext. intros x.
    split; intros (l & Hl & Hx); exists l; split; try done;
      apply elem_of_app; apply elem_of_app in Hl; tauto.
  - apply merge_sources_ext. intros x.
    split; intros (l & Hl & Hx); exists l; split; try done;
      [apply elem_of_app in Hl; tauto | apply elem_of_app; tauto].
Qed.

Lemma merge_sources_same_hostnames_witness :
  merge_sources [Some ["b.example.com"; "a.example.com"]; None; Some ["a.example.com"]]
  = merge_sources [Some ["a.example.com"]; Some ["b.example.com"]].
Proof.
  destruct (merge_sources_same_hostnames
              [Some ["b.example.com"; "a.example.com"]; None; Some ["a.example.com"]]
              [Some ["a.example.com"]; Some ["b.example.com"]]) as (H & _).
  apply H. intros x. split.
  - intros (l & Hl & Hx).
    apply elem_of_cons in Hl as [[= ->]|Hl].
    + apply elem_of_cons in Hx as [->|Hx].
      * exists ["b.example.com"]. split; [right; left | left].
      * exists ["a.example.com"]. split; [left | exact Hx].
    + apply elem_of_cons in Hl as [[=]|Hl].
      exists l. split; [|exact Hx].
      apply list_elem_of_singleton in Hl as ->. left.
  - intros (l & Hl & Hx).
    apply elem_of_cons in Hl as [[= ->]|Hl].
    + exists ["a.example.com"]. split; [right; right; left | exact Hx].
    + apply list_elem_of_singleton in Hl as [= ->].
      exists ["b.example.com"; "a.example.com"]. split; [left|].
      apply list_elem_of_singleton in Hx as ->. left.
Defined.

(** X23: merging composes: an output of [merge_sources] given as an argument
    counts as the arguments it was made from, and [merge_sources] gives its
    own output back. *)
Theorem merge_sources_of_merged (lists1 lists2 : list (option (list string))) :
  merge_sources (Some (merge_sources lists1) :: lists2) = merge_sources (lists1 ++ lists2)
  /\ merge_sources [Some (merge_sources lists1)] = merge_sources lists1.
Proof.
  split.
  - apply merge_sources_ext. intros x. split.
    + intros (l & Hl & Hx). apply elem_of_cons in Hl as [[= ->]|Hl].
      * apply elem_of_merge_sources in Hx as (l' & Hl' & Hx).
        exists l'. split; [|done]. apply elem_of_app. by left.
      * exists l. split; [|done]. apply elem_of_app. by right.
    + intros (l & Hl & Hx). apply elem_of_app in Hl as [Hl|Hl].
      * exists (merge_sources lists1). split; [by left|].
        apply elem_of_merge_sources. eauto.
      * exists l. split; [by right | done].
  - apply merge_sources_ext. intros x. split.
    + intros (l & Hl & Hx). apply list_elem_of_singleton in Hl as [= ->].
      by apply elem_of_merge_sources.
    + intros H. exists (merge_sources lists1). split; [by left|].
      by apply elem_of_merge_sources.
Qed.

(** X24: [merge_sources] gives a sorted list without duplicate back as it
    is; and so the hostnames that [list_subdomains] or [search_subdomains]
    returned, merged alone, come back unchanged. *)
Theorem merge_sources_keeps_results :
  (forall l : list string,
     StronglySorted String.le l -> NoDup l -> merge_sources [Some l] = l)
  /\
  (forall self domain w hosts data,
     fst (list_subdomains self domain w) = inr (hosts, data) ->
     merge_sources [Some hosts] = hosts)
  /\
  (forall self domain page_size max_pages w hosts raw,
     fst (search_subdomains self domain page_size max_pages w) = inr (hosts, raw) ->
     merge_sources [Some hosts] = hosts).
Proof.
  split; [|split].
  - intros l Hs Hn. rewrite merge_sources_one. by apply sorted_fixed.
  - intros self domain w hosts data H.
    destruct (list_subdomains_returned _ _ _ _ _ H) as (_ & names & -> & _).
    rewrite merge_sources_one.
    apply sorted_fixed; [apply StronglySorted_sorted | apply NoDup_sorted].
  - intros self domain page_size max_pages w hosts raw.
    unfold search_subdomains, bind.
    destruct (search_pages _ _ _ _ _ _ w) as [[e|[found pages]] w1]; [discriminate|].
    cbn. intros [= <- <-]. rewrite merge_sources_one.
    apply sorted_fixed; [apply StronglySorted_sorted | apply NoDup_sorted].
Qed.

Lemma merge_sources_keeps_results_witness :
  merge_sources [Some ["api.example.com"; "www.example.com"]]
  = ["api.example.com"; "www.example.com"].
Proof.
  destruct merge_sources_keeps_results as (_ & H & _).
  apply (H (client_of (scripted [Response 200 (inr (JObj [("subdomains",
                                   JArr [JStr "www"; JStr "api.example.com"; JStr ""])]))]
                         (Fault "down")))
           "example.com" fresh _
           (JObj [("subdomains", JArr [JStr "www"; JStr "api.example.com"; JStr ""])])).
  vm_compute. reflexivity.
Defined.

(** ** save_to_file *)





(** ** The script *)

Lemma init_world environ net explicit base_url timeout w :
  snd (__init__ environ net explicit base_url timeout w) = w.
Proof.
  unfold __init__. destruct (opt_or _ _) as [k|]; [|done]. by destruct (nonempty k).
Qed.

(** The discovery call of the script. *)
Lemma main_after_discovery environ net args p client subs raw w :
  fst (__init__ environ net (arg_api_key args) DEFAULT_BASE 15 (network p)) = inr client ->
  match arg_method args with
  | by_list => list_subdomains client (arg_domain args)
  | by_search => search_subdomains client (arg_domain args) 100 10
  end (network p) = (inr (subs, raw), w) ->
  main environ net args p =
    let printed :=
      stdout p
      ++ ["Found " +:+ show (Z.of_nat (length subs)) +:+ " subdomains for "
          +:+ arg_domain args +:+ " via SecurityTrails ("
          +:+ method_name (arg_method args) +:+ ")"]
      ++ subs in
    match arg_out args with
    | Some out =>
        if nonempty out then
          match save_to_file subs out (storage p) with
          | inl err => (inl err, {| network := w; stdout := printed; storage := storage p |})
          | inr d =>
              (inr tt, {| network := w;
                          stdout := printed ++ ["[INFO] Saved results to " +:+ out];
                          storage := d |})
          end
        else (inr tt, {| network := w; stdout := printed; storage := storage p |})
    | None => (inr tt, {| network := w; stdout := printed; storage := storage p |})
    end.
Proof.
  intros Hinit Hrun. unfold main.
  pose proof (init_world environ net (arg_api_key args) DEFAULT_BASE 15 (network p)) as Hw.
  destruct (__init__ environ net (arg_api_key args) DEFAULT_BASE 15 (network p)) as [r w0].
  cbn [fst snd] in *. subst r w0. by rewrite Hrun.
Qed.

(** X26: without a credential, neither [--api-key] nor SECURITYTRAILS_APIKEY
    being set to a non-empty string, the script ends with the [ValueError] of
    the constructor before it has sent, printed or written anything. *)
Theorem main_without_credential environ net args p :
  arg_api_key args = None \/ arg_api_key args = Some "" ->
  environ !! "SECURITYTRAILS_APIKEY" = None \/ environ !! "SECURITYTRAILS_APIKEY" = Some "" ->
  main environ net args p =
    (inl (Raised (ValueError "SecurityTrails API key not provided. Set SECURITYTRAILS_APIKEY or pass api_key param.")),
     p).
Proof.
  intros Hkey Henv. unfold main. rewrite init_unresolved.
  - by destruct p.
  - by destruct Hkey as [-> | ->], Henv as [-> | ->].
Qed.

Lemma main_without_credential_witness :
  main ∅ (scripted [] (Response 200 (inr JNull)))
    {| arg_domain := "example.com"; arg_method := by_list;
       arg_out := Some "hosts.txt"; arg_api_key := None |} fresh_process
  = (inl (Raised (ValueError "SecurityTrails API key not provided. Set SECURITYTRAILS_APIKEY or pass api_key param.")),
     fresh_process).
Proof.
  apply (main_without_credential ∅ (scripted [] (Response 200 (inr JNull)))
           {| arg_domain := "example.com"; arg_method := by_list;
              arg_out := Some "hosts.txt"; arg_api_key := None |} fresh_process);
    by left.
Defined.



(** X28: when the discovery call raises, the exhaustion error of the request
    layer say, the script ends with that exception and has printed and
    written nothing. *)
Theorem main_discovery_raises environ net args p client e :
  fst (__init__ environ net (arg_api_key args) DEFAULT_BASE 15 (network p)) = inr client ->
  fst (match arg_method args with
       | by_list => list_subdomains client (arg_domain args)
       | by_search => search_subdomains client (arg_domain args) 100 10
       end (network p)) = inl e ->
  exists p',
    main environ net args p = (inl (Raised e), p')
    /\ stdout p' = stdout p /\ storage p' = storage p.
Proof.
  intros Hinit Hrun. unfold main.
  pose proof (init_world environ net (arg_api_key args) DEFAULT_BASE 15 (network p)) as Hw.
  destruct (__init__ environ net (arg_api_key args) DEFAULT_BASE 15 (network p)) as [r w0].
  cbn [fst snd] in *. subst r w0.
  destruct (match arg_method args with
            | by_list => list_subdomains client (arg_domain args)
            | by_search => search_subdomains client (arg_domain args) 100 10
            end (network p)) as [r w1].
  cbn [fst] in Hrun. subst r. eauto.
Qed.

Lemma main_discovery_raises_witness :
  exists p',
    main {["SECURITYTRAILS_APIKEY" := "k"]} (scripted [] (Fault "timeout"))
      {| arg_domain := "example.com"; arg_method := by_search;
         arg_out := Some "hosts.txt"; arg_api_key := None |} fresh_process
    = (inl (Raised (RuntimeError
                      "POST request to https://api.securitytrails.com/v1/domains/list failed after 3 attempts")),
       p')
    /\ stdout p' = [] /\ storage p' = empty_disk.
Proof.
  apply (main_discovery_raises {["SECURITYTRAILS_APIKEY" := "k"]} (scripted [] (Fault "timeout"))
           {| arg_domain := "example.com"; arg_method := by_search;
              arg_out := Some "hosts.txt"; arg_api_key := None |} fresh_process
           (client_of (scripted [] (Fault "timeout")))).
  - reflexivity.
  - vm_compute. reflexivity.
Defined.

(** X29: when [--out] cannot be written, the script has printed the count
    and the hostnames but no confirmation, and ends with the [OSError] of
    [open], the files as they were; without [--out], or with an empty one, it
    ends normally and leaves the files as they were. *)
Theorem main_without_file environ net args p client subs raw w :
  fst (__init__ environ net (arg_api_key args) DEFAULT_BASE 15 (network p)) = inr client ->
  match arg_method args with
  | by_list => list_subdomains client (arg_domain args)
  | by_search => search_subdomains client (arg_domain args) 100 10
  end (network p) = (inr (subs, raw), w) ->
  (forall out,
     arg_out args = Some out -> out <> "" -> out ∈ refused (storage p) ->
     main environ net args p =
       (inl (OSError out),
        {| network := w;
           stdout := stdout p
                     ++ ["Found " +:+ show (Z.of_nat (length subs)) +:+ " subdomains for "
                         +:+ arg_domain args +:+ " via SecurityTrails ("
                         +:+ method_name (arg_method args) +:+ ")"]
                     ++ subs;
           storage := storage p |}))
  /\
  (arg_out args = None \/ arg_out args = Some "" ->
   main environ net args p =
     (inr tt,
      {| network := w;
         stdout := stdout p
                   ++ ["Found " +:+ show (Z.of_nat (length subs)) +:+ " subdomains for "
                       +:+ arg_domain args +:+ " via SecurityTrails ("
                       +:+ method_name (arg_method args) +:+ ")"]
                   ++ subs;
         storage := storage p |})).
Proof.
  intros Hinit Hrun.
  rewrite (main_after_discovery _ _ _ _ client subs raw w Hinit Hrun). cbv zeta. split.
  - intros out Hout Hne Hrefused. rewrite Hout. apply nonempty_true in Hne. rewrite Hne.
    unfold save_to_file. by rewrite bool_decide_true by done.
  - by intros [-> | ->].
Qed.

Lemma main_without_file_witness :
  fst (main {["SECURITYTRAILS_APIKEY" := "k"]}
         (scripted [Response 200 (inr (JObj [("subdomains", JArr [JStr "www"])]))] (Fault "down"))
         {| arg_domain := "example.com"; arg_method := by_list;
            arg_out := Some "/missing/hosts.txt"; arg_api_key := None |}
         {| network := fresh; stdout := [];
            storage := {| files := ∅; refused := {["/missing/hosts.txt"]} |} |})
  = inl (OSError "/missing/hosts.txt").
Proof.
  destruct (main_without_file {["SECURITYTRAILS_APIKEY" := "k"]}
              (scripted [Response 200 (inr (JObj [("subdomains", JArr [JStr "www"])]))]
                 (Fault "down"))
              {| arg_domain := "example.com"; arg_method := by_list;
                 arg_out := Some "/missing/hosts.txt"; arg_api_key := None |}
              {| network := fresh; stdout := [];
                 storage := {| files := ∅; refused := {["/missing/hosts.txt"]} |} |}
              (client_of (scripted [Response 200 (inr (JObj [("subdomains", JArr [JStr "www"])]))]
                            (Fault "down")))
              ["www.example.com"] (JObj [("subdomains", JArr [JStr "www"])])
              (snd (list_subdomains
                      (client_of (scripted [Response 200 (inr (JObj [("subdomains",
                                              JArr [JStr "www"])]))] (Fault "down")))
                      "example.com" fresh))) as [H _].
  - reflexivity.
  - vm_compute. reflexivity.
  - assert ("/missing/hosts.txt" ∈ ({["/missing/hosts.txt"]} : gset string)) as Hin
      by by apply elem_of_singleton.
    exact (f_equal fst (H "/missing/hosts.txt" eq_refl ltac:(done) Hin)).
Defined.

Lemma init_client environ net explicit base_url timeout w client :
  fst (__init__ environ net explicit base_url timeout w) = inr client ->
  exists k,
    opt_or explicit (environ !! "SECURITYTRAILS_APIKEY") = Some k /\ k <> ""
    /\ client = {| api_key := k;
                   base := rstrip "/" base_url;
                   session := {| headers := [("Accept", "application/json");
                                             ("APIKEY", k);
                                             ("User-Agent", "BlackByt3-Subenum/1.0 (by Jahangir)")];
                                 remote := net |};
                   timeout := timeout |}.
Proof.
  unfold __init__. destruct (opt_or _ _) as [k|]; [|done].
  destruct (nonempty k) eqn:Hk; cbn; [|done].
  intros [= <-]. exists k. split; [done|]. split; [by apply nonempty_true | done].
Qed.

(** The network part of a run of the script is that of its discovery call. *)
Lemma main_network environ net args p client :
  fst (__init__ environ net (arg_api_key args) DEFAULT_BASE 15 (network p)) = inr client ->
  network (snd (main environ net args p))
  = snd (match arg_method args with
         | by_list => list_subdomains client (arg_domain args)
         | by_search => search_subdomains client (arg_domain args) 100 10
         end (network p)).
Proof.
  intros Hinit. unfold main.
  pose proof (init_world environ net (arg_api_key args) DEFAULT_BASE 15 (network p)) as Hw.
  destruct (__init__ environ net (arg_api_key args) DEFAULT_BASE 15 (network p)) as [r w0].
  cbn [fst snd] in *. subst r w0.
  destruct (match arg_method args with
            | by_list => list_subdomains client (arg_domain args)
            | by_search => search_subdomains client (arg_domain args) 100 10
            end (network p)) as [[e|[subs raw]] w1]; [done|].
  cbn [snd]. destruct (arg_out args) as [out|]; [|done].
  destruct (nonempty out); [|done]. by destruct (save_to_file subs out (storage p)).
Qed.

(** X30: whatever the remote side answers, a run of the script makes at most
    30 calls of [session.get] and [session.post], each with the resolved
    credential in its [APIKEY] header and the timeout of 15, and each either
    the GET for the subdomains of the domain or the POST of the search, with a
    URL under the default base.  This counts the calls, one entry of [sent]
    each, and says where the script itself directs them; what [requests]
    sends inside one call when it follows a redirect is not covered. *)
Theorem main_requests environ net args p :
  exists requests,
    sent (network (snd (main environ net args p))) = sent (network p) ++ requests
    /\ (length requests <= 30)%nat
    /\ Forall (fun r =>
         exists k,
           opt_or (arg_api_key args) (environ !! "SECURITYTRAILS_APIKEY") = Some k
           /\ k <> ""
           /\ req_headers r = [("Accept", "application/json"); ("APIKEY", k);
                               ("User-Agent", "BlackByt3-Subenum/1.0 (by Jahangir)")]
           /\ req_timeout r = 15
           /\ (req_verb r = GET
               /\ req_url r = DEFAULT_BASE +:+ "/domain/" +:+ arg_domain args +:+ "/subdomains"
               \/ req_verb r = POST /\ req_url r = DEFAULT_BASE +:+ "/domains/list"))
         requests.
Proof.
  destruct (__init__ environ net (arg_api_key args) DEFAULT_BASE 15 (network p))
    as [[e|client] w0] eqn:Hinit.
  - exists []. rewrite app_nil_r. split; [|split; [cbn; lia | constructor]].
    unfold main. rewrite Hinit. cbn.
    pose proof (init_world environ net (arg_api_key args) DEFAULT_BASE 15 (network p)) as Hw.
    rewrite Hinit in Hw. cbn in Hw. by subst w0.
  - assert (Hfst : fst (__init__ environ net (arg_api_key args) DEFAULT_BASE 15 (network p))
                   = inr client) by by rewrite Hinit.
    rewrite (main_network _ _ _ _ client Hfst).
    destruct (init_client _ _ _ _ _ _ _ Hfst) as (k & Hk & Hne & ->).
    destruct (arg_method args).
    + destruct (list_subdomains_sent
                  {| api_key := k; base := rstrip "/" DEFAULT_BASE;
                     session := {| headers := [("Accept", "application/json"); ("APIKEY", k);
                                               ("User-Agent", "BlackByt3-Subenum/1.0 (by Jahangir)")];
                                   remote := net |};
                     timeout := 15 |} (arg_domain args) (network p)) as (n & Hn & Hs).
      eexists. split; [exact Hs|]. split; [rewrite length_replicate; lia|].
      apply Forall_replicate. exists k. repeat split; try done. by left.
    + destruct (search_subdomains_sent
                  {| api_key := k; base := rstrip "/" DEFAULT_BASE;
                     session := {| headers := [("Accept", "application/json"); ("APIKEY", k);
                                               ("User-Agent", "BlackByt3-Subenum/1.0 (by Jahangir)")];
                                   remote := net |};
                     timeout := 15 |} (arg_domain args) 100 10 (network p))
        as (requests & Hs & Hlen & Hall).
      exists requests. split; [exact Hs|]. split; [cbn in Hlen; lia|].
      eapply Forall_impl; [exact Hall|]. intros r (page & _ & ->).
      exists k. repeat split; try done. by right.
Qed.
